(** * mls_api: the soccer statistics data model

    A shallow embedding of [mls_api/models.py] and of the South migration
    [0008_auto__chg_field_substitution_out_player__...]: the declared
    fields of each model class, the rows of the relational store, the
    querysets the model methods build, and the schema operations of the
    migration.

    Conventions.
    - a Python [int] is a [Z]; a [count()] is a [nat];
    - a [DateTimeField] value is a [Z] (a clock reading);
    - a [ForeignKey] is stored as the primary key of the row it points to
      (the column [<field>_id] of the store);
    - a queryset is the list of rows it evaluates to. *)

From stdpp Require Import gmap strings list sorting pretty.
From Stdlib Require Import ZArith Lia Ascii.

Local Open Scope Z_scope.

(** ** Field declarations ([django.db.models]) *)

Inductive Field :=
  | AutoField
  | CharField (max_length : nat)
  | SlugField (unique : bool)
  | IntegerField
  | BooleanField
  | DecimalField (decimal_places max_digits : nat)
  | DateTimeField (auto_now auto_now_add : bool)
  | ForeignKey (to : string)
  | ManyToManyField (to : string).

Global Instance Field_eq_dec : EqDecision Field.
Proof. solve_decision. Defined.

(** What a class body binds a name to.  [models.py] binds names to fields,
    to properties (a getter of type [G], no setter) and to plain methods. *)
Inductive ClassAttr (G : Type) :=
  | AField (f : Field)
  | AProperty (fget : G)
  | AMethod.
Arguments AField {G} f.
Arguments AProperty {G} fget.
Arguments AMethod {G}.

(** The class namespace a class body leaves behind: the statements run in
    order and a later binding of a name replaces an earlier one. *)
Definition class_namespace {G} (body : list (string * ClassAttr G))
  : gmap string (ClassAttr G) :=
  foldl (λ ns kv, <[kv.1 := kv.2]> ns) ∅ body.

Definition is_field {G} (a : ClassAttr G) : bool :=
  match a with AField _ => true | _ => false end.

(** The names the model metaclass collects as fields: those bound to a
    field in the class namespace. *)
Definition local_fields {G} (body : list (string * ClassAttr G)) : gset string :=
  dom (filter (λ kv, is_field kv.2 = true) (class_namespace body)).

(** Only [SlugField] is ever given [unique=True] in [models.py]. *)
Definition field_unique (f : Field) : bool :=
  match f with SlugField u => u | _ => false end.

Definition unique_fields {G} (body : list (string * ClassAttr G)) : list string :=
  (map_to_list (class_namespace body)) ≫=
    (λ kv, match kv.2 with
           | AField f => if field_unique f then [kv.1] else []
           | _ => []
           end).

(** A value held by a column or by an instance attribute. *)
Inductive Value :=
  | VNull
  | VBool (b : bool)
  | VInt (n : Z)
  | VStr (s : string).

Global Instance Value_eq_dec : EqDecision Value.
Proof. solve_decision. Defined.

(** ** BaseModel *)

Module BaseModel.
(** [created = DateTimeField(auto_now_add=True)],
    [modified = DateTimeField(auto_now=True)]. *)
Definition created_field : Field := DateTimeField false true.
Definition modified_field : Field := DateTimeField true false.

Record t := Make { created : Z; modified : Z }.

Definition class_body : list (string * ClassAttr Empty_set) :=
  [ ("created", AField created_field);
    ("modified", AField modified_field) ].
End BaseModel.

(** ** Rows of the store, one record per model class *)

Module Team.
Record t := Make { id : Z; base : BaseModel.t; name : string; slug : string }.

Definition class_body : list (string * ClassAttr Empty_set) :=
  [ ("name", AField (CharField 128));
    ("slug", AField (SlugField true));
    ("__unicode__", AMethod);
    ("get_absolute_url", AMethod) ].

Definition Meta_ordering : list string := ["name"].

Definition column (c : string) (r : t) : option Value :=
  if decide (c = "id") then Some (VInt (id r))
  else if decide (c = "created") then Some (VInt (BaseModel.created (base r)))
  else if decide (c = "modified") then Some (VInt (BaseModel.modified (base r)))
  else if decide (c = "name") then Some (VStr (name r))
  else if decide (c = "slug") then Some (VStr (slug r))
  else None.
End Team.

Module Player.
Record t := Make {
  id : Z; base : BaseModel.t;
  first_name : string; last_name : string; number : Z;
  team : Z; position : string }.

Definition Meta_ordering : list string := ["last_name"; "first_name"].

Definition column (c : string) (r : t) : option Value :=
  if decide (c = "id") then Some (VInt (id r))
  else if decide (c = "created") then Some (VInt (BaseModel.created (base r)))
  else if decide (c = "modified") then Some (VInt (BaseModel.modified (base r)))
  else if decide (c = "first_name") then Some (VStr (first_name r))
  else if decide (c = "last_name") then Some (VStr (last_name r))
  else if decide (c = "number") then Some (VInt (number r))
  else if decide (c = "team") then Some (VInt (team r))
  else if decide (c = "position") then Some (VStr (position r))
  else None.
End Player.

Module GamePlayer.
Record t := Make {
  id : Z; base : BaseModel.t;
  player : Z; position : string; game : Z; captain : bool; team : Z }.
End GamePlayer.

Module Competition.
Record t := Make {
  id : Z; base : BaseModel.t; name : string; slug : string; year : string }.

Definition class_body : list (string * ClassAttr Empty_set) :=
  [ ("name", AField (CharField 128));
    ("slug", AField (SlugField true));
    ("year", AField (CharField 4));
    ("__unicode__", AMethod);
    ("get_absolute_url", AMethod) ].

Definition column (c : string) (r : t) : option Value :=
  if decide (c = "id") then Some (VInt (id r))
  else if decide (c = "created") then Some (VInt (BaseModel.created (base r)))
  else if decide (c = "modified") then Some (VInt (BaseModel.modified (base r)))
  else if decide (c = "name") then Some (VStr (name r))
  else if decide (c = "slug") then Some (VStr (slug r))
  else if decide (c = "year") then Some (VStr (year r))
  else None.
End Competition.

Module Goal.
Record t := Make {
  id : Z; base : BaseModel.t;
  game : Z; minute : Z; player : Z; penalty : bool; own_goal : bool }.
End Goal.

Module FormationPlayer.
Record t := Make {
  id : Z; base : BaseModel.t; player : Z; line : Z; sort_order : Z }.
End FormationPlayer.

Module FormationLine.
Record t := Make {
  id : Z; base : BaseModel.t; formation : Z; sort_order : Z }.

Definition Meta_ordering : list string := ["sort_order"].

Definition column (c : string) (r : t) : option Value :=
  if decide (c = "id") then Some (VInt (id r))
  else if decide (c = "created") then Some (VInt (BaseModel.created (base r)))
  else if decide (c = "modified") then Some (VInt (BaseModel.modified (base r)))
  else if decide (c = "formation") then Some (VInt (formation r))
  else if decide (c = "sort_order") then Some (VInt (sort_order r))
  else None.
End FormationLine.

Module Formation.
Record t := Make { id : Z; base : BaseModel.t; team : Z; game : Z }.
End Formation.

Module Game.
(** [start_time] is declared [null=True]; the scores are not columns
    (see [class_body] below). *)
Record t := Make {
  id : Z; base : BaseModel.t;
  home_team : Z; away_team : Z; start_time : option Z;
  competition : Z; stat_link : string }.

Inductive getter := HomeScore | AwayScore.

(** The class body, statement by statement.  [home_score] and
    [away_score] are bound twice: first to an [IntegerField], further
    down to a property. *)
Definition class_body : list (string * ClassAttr getter) :=
  [ ("home_team", AField (ForeignKey "Team"));
    ("away_team", AField (ForeignKey "Team"));
    ("start_time", AField (DateTimeField false false));
    ("home_score", AField IntegerField);
    ("away_score", AField IntegerField);
    ("competition", AField (ForeignKey "Competition"));
    ("stat_link", AField (CharField 512));
    ("players", AField (ManyToManyField "Player"));
    ("__unicode__", AMethod);
    ("get_absolute_url", AMethod);
    ("_retrieve_goal_count", AMethod);
    ("home_score", AProperty HomeScore);
    ("away_score", AProperty AwayScore) ].

Definition Meta_ordering : list string := ["-start_time"].

Definition column (c : string) (r : t) : option Value :=
  if decide (c = "id") then Some (VInt (id r))
  else if decide (c = "created") then Some (VInt (BaseModel.created (base r)))
  else if decide (c = "modified") then Some (VInt (BaseModel.modified (base r)))
  else if decide (c = "home_team") then Some (VInt (home_team r))
  else if decide (c = "away_team") then Some (VInt (away_team r))
  else if decide (c = "start_time") then
    Some (match start_time r with Some t => VInt t | None => VNull end)
  else if decide (c = "competition") then Some (VInt (competition r))
  else if decide (c = "stat_link") then Some (VStr (stat_link r))
  else None.
End Game.

(** The tables the modelled methods read. *)
Record Store := MkStore {
  teams : list Team.t;
  gameplayers : list GamePlayer.t;
  goals : list Goal.t;
  formationlines : list FormationLine.t;
  formationplayers : list FormationPlayer.t }.

(** ** Querysets *)

(** [qs.filter(...)] keeps the rows that satisfy the lookup,
    [qs.count()] counts the rows. *)
Definition qs_filter {A} (P : A → Prop) `{∀ x, Decision (P x)}
  (qs : list A) : list A := filter P qs.
Definition qs_count {A} (qs : list A) : nat := length qs.

(** Row with a given primary key. *)
Definition get_by_pk {A} (pk : A → Z) (k : Z) (tbl : list A) : option A :=
  snd <$> list_find (λ r, pk r = k) tbl.

(** The lookup path [player__team] from a Goal: the join of the goal with
    its GamePlayer row, then that row's [team] column.  A goal whose
    [player] matches no GamePlayer row has no joined row. *)
Definition player__team (st : Store) (g : Goal.t) : option Z :=
  GamePlayer.team <$> get_by_pk GamePlayer.id (Goal.player g) (gameplayers st).

(** A comparison on a joined column holds of a row only when the join has
    a partner; its negation, as SQL evaluates it, likewise. *)
Definition joined_eq (j : option Z) (k : Z) : Prop :=
  match j with Some x => x = k | None => False end.
Definition joined_ne (j : option Z) (k : Z) : Prop :=
  match j with Some x => x ≠ k | None => False end.

Global Instance joined_eq_dec j k : Decision (joined_eq j k).
Proof. destruct j; simpl; apply _. Defined.
Global Instance joined_ne_dec j k : Decision (joined_ne j k).
Proof. destruct j; simpl; apply _. Defined.

(** [self.goal_set]: the reverse relation of [Goal.game]. *)
Definition goal_set (st : Store) (self : Game.t) : list Goal.t :=
  qs_filter (λ g, Goal.game g = Game.id self) (goals st).

(** [.exclude(player__team=team)] over goals: the rows whose joined
    [team] column differs from [team]. *)
Definition exclude_player__team (st : Store) (team : Z)
  (qs : list Goal.t) : list Goal.t :=
  qs_filter (λ g, joined_ne (player__team st g) team) qs.

(** [Game._retrieve_goal_count(self, team)]; [team] is passed by its
    primary key, which is what the lookups compare. *)
Definition _retrieve_goal_count (st : Store) (self : Game.t) (team : Z) : nat :=
  let own_goals :=
    qs_count
      (exclude_player__team st team
         (qs_filter (λ g, Goal.own_goal g = true) (goal_set st self))) in
  let goals :=
    qs_count
      (qs_filter
         (λ g, joined_eq (player__team st g) team ∧ Goal.own_goal g = false)
         (goal_set st self)) in
  (own_goals + goals)%nat.

(** Reading a ForeignKey attribute fetches the referenced row
    ([None]: [DoesNotExist] is raised). *)
Definition fk_team (st : Store) (k : Z) : option Team.t :=
  get_by_pk Team.id k (teams st).

(** [Game.home_score] and [Game.away_score] (properties). *)
Definition home_score (st : Store) (self : Game.t) : option nat :=
  team ← fk_team st (Game.home_team self);
  Some (_retrieve_goal_count st self (Team.id team)).

Definition away_score (st : Store) (self : Game.t) : option nat :=
  team ← fk_team st (Game.away_team self);
  Some (_retrieve_goal_count st self (Team.id team)).

(** ** Python attribute access on a Game instance *)

(** An instance carries its column attributes ([row]) and whatever other
    attributes were set on it ([extra], the rest of [__dict__]). *)
Record GameInstance := MkGameInstance {
  row : Game.t;
  extra : gmap string Value }.

(** Assigning a column attribute. *)
Definition Game_set_column (c : string) (v : Value) (r : Game.t) : option Game.t :=
  match v with
  | VInt n =>
      if decide (c = "id") then
        Some (Game.Make n (Game.base r) (Game.home_team r) (Game.away_team r)
                (Game.start_time r) (Game.competition r) (Game.stat_link r))
      else if decide (c = "created") then
        Some (Game.Make (Game.id r)
                (BaseModel.Make n (BaseModel.modified (Game.base r)))
                (Game.home_team r) (Game.away_team r)
                (Game.start_time r) (Game.competition r) (Game.stat_link r))
      else if decide (c = "modified") then
        Some (Game.Make (Game.id r)
                (BaseModel.Make (BaseModel.created (Game.base r)) n)
                (Game.home_team r) (Game.away_team r)
                (Game.start_time r) (Game.competition r) (Game.stat_link r))
      else if decide (c = "home_team") then
        Some (Game.Make (Game.id r) (Game.base r) n (Game.away_team r)
                (Game.start_time r) (Game.competition r) (Game.stat_link r))
      else if decide (c = "away_team") then
        Some (Game.Make (Game.id r) (Game.base r) (Game.home_team r) n
                (Game.start_time r) (Game.competition r) (Game.stat_link r))
      else if decide (c = "start_time") then
        Some (Game.Make (Game.id r) (Game.base r) (Game.home_team r)
                (Game.away_team r) (Some n) (Game.competition r)
                (Game.stat_link r))
      else if decide (c = "competition") then
        Some (Game.Make (Game.id r) (Game.base r) (Game.home_team r)
                (Game.away_team r) (Game.start_time r) n (Game.stat_link r))
      else None
  | VNull =>
      if decide (c = "start_time") then
        Some (Game.Make (Game.id r) (Game.base r) (Game.home_team r)
                (Game.away_team r) None (Game.competition r)
                (Game.stat_link r))
      else None
  | VStr s =>
      if decide (c = "stat_link") then
        Some (Game.Make (Game.id r) (Game.base r) (Game.home_team r)
                (Game.away_team r) (Game.start_time r) (Game.competition r) s)
      else None
  | VBool _ => None
  end.

(** [setattr(self, name, v)].  A property is a data descriptor of the
    class and has no setter here: the assignment raises ([None]).  A column
    attribute takes the value; any other name lands in [__dict__]. *)
Definition Game_setattr (name : string) (v : Value) (self : GameInstance)
  : option GameInstance :=
  match class_namespace Game.class_body !! name with
  | Some (AProperty _) => None
  | Some AMethod => Some (MkGameInstance (row self) (<[name := v]> (extra self)))
  | Some (AField _) | None =>
      match Game.column name (row self) with
      | Some _ =>
          r ← Game_set_column name v (row self);
          Some (MkGameInstance r (extra self))
      | None => Some (MkGameInstance (row self) (<[name := v]> (extra self)))
      end
  end.

(** The getters of the two properties. *)
Definition Game_fget (st : Store) (p : Game.getter) (self : Game.t) : option Value :=
  match p with
  | Game.HomeScore => (λ n, VInt (Z.of_nat n)) <$> home_score st self
  | Game.AwayScore => (λ n, VInt (Z.of_nat n)) <$> away_score st self
  end.

(** [getattr(self, name)]: a property of the class wins over the
    instance; otherwise the instance's own attributes are read. *)
Definition Game_getattr (st : Store) (self : GameInstance) (name : string)
  : option Value :=
  match class_namespace Game.class_body !! name with
  | Some (AProperty p) => Game_fget st p (row self)
  | Some AMethod => extra self !! name
  | Some (AField _) | None =>
      match Game.column name (row self) with
      | Some v => Some v
      | None => extra self !! name
      end
  end.

(** A run of attribute assignments; it stops at the first one that raises. *)
Fixpoint Game_writes (ws : list (string * Value)) (self : GameInstance)
  : option GameInstance :=
  match ws with
  | [] => Some self
  | (name, v) :: ws' => self' ← Game_setattr name v self; Game_writes ws' self'
  end.

(** The frozen description of [mls_api.game] in the migration
    (its [Meta] entry left out). *)
Definition frozen_game : list (string * Field) :=
  [ ("away_team", ForeignKey "mls_api.Team");
    ("competition", ForeignKey "mls_api.Competition");
    ("created", DateTimeField false true);
    ("home_team", ForeignKey "mls_api.Team");
    ("id", AutoField);
    ("modified", DateTimeField true false);
    ("players", ManyToManyField "mls_api.Player");
    ("start_time", DateTimeField false false);
    ("stat_link", CharField 512) ].

(** ** Default ordering ([Meta.ordering]) *)

(** What the store contributes to an [ORDER BY]: how it collates strings
    and whether it sorts NULL below or above every other value. *)
Record Backend := MkBackend {
  collate : string → string → bool;
  nulls_low : bool }.

Definition value_tag (v : Value) : nat :=
  match v with VNull => 0 | VBool _ => 1 | VInt _ => 2 | VStr _ => 3 end%nat.

(** Ascending comparison of two column values. *)
Definition value_leb (bk : Backend) (a b : Value) : bool :=
  match a, b with
  | VNull, VNull => true
  | VNull, _ => nulls_low bk
  | _, VNull => negb (nulls_low bk)
  | VBool x, VBool y => implb x y
  | VInt x, VInt y => x <=? y
  | VStr x, VStr y => collate bk x y
  | _, _ => (value_tag a <=? value_tag b)%nat
  end.

(** An entry of [Meta.ordering]: a column name, with a leading ["-"] for
    descending order. *)
Definition parse_ordering (s : string) : bool * string :=
  match s with
  | String "-"%char c => (true, c)
  | _ => (false, s)
  end.

Section order_by.
Context {A : Type} (bk : Backend) (column : string → A → option Value).

Definition term_leb (s : string) (a b : A) : bool :=
  let va := default VNull (column (parse_ordering s).2 a) in
  let vb := default VNull (column (parse_ordering s).2 b) in
  if (parse_ordering s).1 then value_leb bk vb va else value_leb bk va vb.

(** Lexicographic comparison along the ordering tuple. *)
Fixpoint rows_leb (ordering : list string) (a b : A) : bool :=
  match ordering with
  | [] => true
  | s :: rest =>
      if term_leb s a b
      then (if term_leb s b a then rows_leb rest a b else true)
      else false
  end.

Definition rows_le (ordering : list string) : relation A :=
  λ a b, rows_leb ordering a b = true.

Global Instance rows_le_dec ordering a b : Decision (rows_le ordering a b).
Proof. unfold rows_le. apply _. Defined.

(** The rows of a queryset in the order the store returns them. *)
Definition order_by (ordering : list string) (qs : list A) : list A :=
  merge_sort (rows_le ordering) qs.
End order_by.

(** [Team.objects.all()], [Player.objects.all()], [Game.objects.all()]. *)
Definition Team_objects_all (bk : Backend) (tbl : list Team.t) : list Team.t :=
  order_by bk Team.column Team.Meta_ordering tbl.
Definition Player_objects_all (bk : Backend) (tbl : list Player.t) : list Player.t :=
  order_by bk Player.column Player.Meta_ordering tbl.
Definition Game_objects_all (bk : Backend) (tbl : list Game.t) : list Game.t :=
  order_by bk Game.column Game.Meta_ordering tbl.

(** ** Formation.formation_str *)

(** [str(n)] of a count, and [sep.join(...)]. *)
Definition str (n : nat) : string := pretty n.
Definition join (sep : string) (l : list string) : string := String.concat sep l.

(** [self.formationline_set.all()]: the lines of the formation, in the
    default ordering of FormationLine. *)
Definition formationline_set (bk : Backend) (st : Store) (self : Formation.t)
  : list FormationLine.t :=
  order_by bk FormationLine.column FormationLine.Meta_ordering
    (qs_filter (λ l, FormationLine.formation l = Formation.id self)
       (formationlines st)).

(** [x.players]: the GamePlayers joined to the line through
    FormationPlayer; one row per FormationPlayer row of the line whose
    player exists. *)
Definition line_players (st : Store) (x : FormationLine.t) : list FormationPlayer.t :=
  qs_filter
    (λ fp, FormationPlayer.line fp = FormationLine.id x
           ∧ is_Some (get_by_pk GamePlayer.id (FormationPlayer.player fp)
                        (gameplayers st)))
    (formationplayers st).

Definition formation_str (bk : Backend) (st : Store) (self : Formation.t) : string :=
  join "-"
    (drop 1 ((λ x, str (qs_count (line_players st x)))
               <$> formationline_set bk st self)).

(** ** The remaining model classes *)

Module PlayerStatLine.
Record t := Make {
  id : Z; base : BaseModel.t; player : Z;
  shots : Z; shots_on_goal : Z; minutes : Z; goals : Z; assists : Z;
  fouls_commited : Z; fouls_suffered : Z; corners : Z; offsides : Z;
  saves : Z; goals_against : Z }.
End PlayerStatLine.

Module StatSet.
(** [possession] is a decimal with two places: kept in hundredths. *)
Record t := Make {
  id : Z; base : BaseModel.t;
  attempts_on_goal : Z; shots_on_target : Z; shots_off_target : Z;
  blocked_shots : Z; corner_kicks : Z; fouls : Z; crosses : Z;
  offsides : Z; first_yellows : Z; second_yellows : Z; red_cards : Z;
  duels_won : Z; duels_won_percentage : Z; total_passes : Z;
  pass_percentage : Z; possession : Z;
  team : Z; game : Z }.

Definition class_body : list (string * ClassAttr Empty_set) :=
  [ ("attempts_on_goal", AField IntegerField);
    ("shots_on_target", AField IntegerField);
    ("shots_off_target", AField IntegerField);
    ("blocked_shots", AField IntegerField);
    ("corner_kicks", AField IntegerField);
    ("fouls", AField IntegerField);
    ("crosses", AField IntegerField);
    ("offsides", AField IntegerField);
    ("first_yellows", AField IntegerField);
    ("second_yellows", AField IntegerField);
    ("red_cards", AField IntegerField);
    ("duels_won", AField IntegerField);
    ("duels_won_percentage", AField IntegerField);
    ("total_passes", AField IntegerField);
    ("pass_percentage", AField IntegerField);
    ("possession", AField (DecimalField 2 4));
    ("team", AField (ForeignKey "Team"));
    ("game", AField (ForeignKey "Game"));
    ("__unicode__", AMethod) ].

(** The class has no [Meta]: [unique_together] keeps its default. *)
Definition Meta_unique_together : list (list string) := [].

Definition column (c : string) (r : t) : option Value :=
  if decide (c = "id") then Some (VInt (id r))
  else if decide (c = "created") then Some (VInt (BaseModel.created (base r)))
  else if decide (c = "modified") then Some (VInt (BaseModel.modified (base r)))
  else if decide (c = "attempts_on_goal") then Some (VInt (attempts_on_goal r))
  else if decide (c = "shots_on_target") then Some (VInt (shots_on_target r))
  else if decide (c = "shots_off_target") then Some (VInt (shots_off_target r))
  else if decide (c = "blocked_shots") then Some (VInt (blocked_shots r))
  else if decide (c = "corner_kicks") then Some (VInt (corner_kicks r))
  else if decide (c = "fouls") then Some (VInt (fouls r))
  else if decide (c = "crosses") then Some (VInt (crosses r))
  else if decide (c = "offsides") then Some (VInt (offsides r))
  else if decide (c = "first_yellows") then Some (VInt (first_yellows r))
  else if decide (c = "second_yellows") then Some (VInt (second_yellows r))
  else if decide (c = "red_cards") then Some (VInt (red_cards r))
  else if decide (c = "duels_won") then Some (VInt (duels_won r))
  else if decide (c = "duels_won_percentage") then
    Some (VInt (duels_won_percentage r))
  else if decide (c = "total_passes") then Some (VInt (total_passes r))
  else if decide (c = "pass_percentage") then Some (VInt (pass_percentage r))
  else if decide (c = "possession") then Some (VInt (possession r))
  else if decide (c = "team") then Some (VInt (team r))
  else if decide (c = "game") then Some (VInt (game r))
  else None.

Definition set_pk (k : Z) (r : t) : t :=
  Make k (base r) (attempts_on_goal r) (shots_on_target r)
    (shots_off_target r) (blocked_shots r) (corner_kicks r) (fouls r)
    (crosses r) (offsides r) (first_yellows r) (second_yellows r)
    (red_cards r) (duels_won r) (duels_won_percentage r) (total_passes r)
    (pass_percentage r) (possession r) (team r) (game r).
End StatSet.

Module Substitution.
Record t := Make {
  id : Z; base : BaseModel.t;
  out_player : Z; in_player : Z; team : Z; minute : Z }.
End Substitution.

Module Booking.
Record t := Make {
  id : Z; base : BaseModel.t;
  game : Z; minute : Z; player : Z; card_color : string; reason : string }.
End Booking.

(** ** Inserting a row *)

Inductive Result (A : Type) :=
  | Ok (a : A)
  | IntegrityError.
Arguments Ok {A} a.
Arguments IntegrityError {A}.

Section insert.
Context {A G : Type}
  (body : list (string * ClassAttr G))
  (unique_together : list (list string))
  (column : string → A → option Value)
  (pk : A → Z) (set_pk : Z → A → A).

(** The key the store hands to a new row ([AutoField]). *)
Definition next_pk (tbl : list A) : Z := 1 + foldr Z.max 0 (pk <$> tbl).

(** Two rows agree on a set of columns (NULL agrees with nothing). *)
Definition collides (new : A) (cols : list string) (old : A) : Prop :=
  Forall (λ c, column c old = column c new ∧ column c new ≠ Some VNull) cols.

(** The uniqueness constraints of the table: one per [unique=True]
    field, one per entry of [unique_together]. *)
Definition constraints : list (list string) :=
  ((λ c, [c]) <$> unique_fields body) ++ unique_together.

Definition violates (new : A) (tbl : list A) : Prop :=
  Exists (λ cols, Exists (collides new cols) tbl) constraints.

Global Instance violates_dec new tbl : Decision (violates new tbl).
Proof. unfold violates, collides. apply _. Defined.

Definition insert (new : A) (tbl : list A) : Result (list A) :=
  if decide (violates new tbl) then IntegrityError
  else Ok (tbl ++ [set_pk (next_pk tbl) new]).
End insert.

Definition Team_set_pk (k : Z) (r : Team.t) : Team.t :=
  Team.Make k (Team.base r) (Team.name r) (Team.slug r).
Definition Competition_set_pk (k : Z) (r : Competition.t) : Competition.t :=
  Competition.Make k (Competition.base r) (Competition.name r)
    (Competition.slug r) (Competition.year r).

(** Neither [Team] nor [Competition] declares [unique_together]. *)
Definition Team_insert : Team.t → list Team.t → Result (list Team.t) :=
  insert Team.class_body [] Team.column Team.id Team_set_pk.
Definition Competition_insert
  : Competition.t → list Competition.t → Result (list Competition.t) :=
  insert Competition.class_body [] Competition.column Competition.id
    Competition_set_pk.
(** The StatSets of one game and one team. *)
Definition statsets_of (game team : Z) (tbl : list StatSet.t) : list StatSet.t :=
  qs_filter (λ s, StatSet.game s = game ∧ StatSet.team s = team) tbl.

(** ** Inserting a StatSet *)

(** [possession = DecimalField(decimal_places=2, max_digits=4)]: a value is
    written only if it fits four digits, two of them decimals. *)
Definition possession_fits (s : StatSet.t) : Prop :=
  -9999 ≤ StatSet.possession s ≤ 9999.

(** The key of the new row is free: [None] asks the store for a key. *)
Definition key_free (key : option Z) (tbl : list StatSet.t) : Prop :=
  match key with
  | Some k => k ∉ StatSet.id <$> tbl
  | None => True
  end.

Global Instance key_free_dec key tbl : Decision (key_free key tbl).
Proof. destruct key; simpl; apply _. Defined.

(** What an insert raises: the decimal does not fit ([InvalidOperation],
    raised while the statement is prepared), or the store refuses the
    row. *)
Inductive InsertError := InvalidOperation | DatabaseError.

(** [StatSet.objects.create(...)].  [key] is the key the caller gives the
    new row, if any; the [id] that [new] holds is not read.
    [store_accepts] stands for the checks the store makes of the values of
    the row itself (the range of its integer columns and, where foreign
    keys are enforced, its game and team); the store also refuses a key
    that is taken and a row that breaks a uniqueness constraint of the
    table. *)
Definition StatSet_insert (store_accepts : StatSet.t → bool)
  (key : option Z) (new : StatSet.t) (tbl : list StatSet.t)
  : InsertError + list StatSet.t :=
  if decide (possession_fits new) then
    if decide (store_accepts new = true ∧ key_free key tbl
               ∧ ¬ violates StatSet.class_body StatSet.Meta_unique_together
                     StatSet.column new tbl)
    then inr (tbl ++ [StatSet.set_pk (default (next_pk StatSet.id tbl) key) new])
    else inl DatabaseError
  else inl InvalidOperation.

(** ** The timestamps of BaseModel *)

(** Every model class derives from the abstract [BaseModel]: its rows
    carry the two timestamps. *)
Class Stamped (A : Type) := {
  stamps : A → BaseModel.t;
  set_stamps : BaseModel.t → A → A;
  stamps_set_stamps : ∀ b a, stamps (set_stamps b a) = b }.

Global Instance Team_Stamped : Stamped Team.t := {|
  stamps := Team.base;
  set_stamps b r := Team.Make (Team.id r) b (Team.name r) (Team.slug r);
  stamps_set_stamps _ _ := eq_refl |}.

Global Instance Player_Stamped : Stamped Player.t := {|
  stamps := Player.base;
  set_stamps b r :=
    Player.Make (Player.id r) b (Player.first_name r) (Player.last_name r)
      (Player.number r) (Player.team r) (Player.position r);
  stamps_set_stamps _ _ := eq_refl |}.

Global Instance PlayerStatLine_Stamped : Stamped PlayerStatLine.t := {|
  stamps := PlayerStatLine.base;
  set_stamps b r :=
    PlayerStatLine.Make (PlayerStatLine.id r) b (PlayerStatLine.player r)
      (PlayerStatLine.shots r) (PlayerStatLine.shots_on_goal r)
      (PlayerStatLine.minutes r) (PlayerStatLine.goals r)
      (PlayerStatLine.assists r) (PlayerStatLine.fouls_commited r)
      (PlayerStatLine.fouls_suffered r) (PlayerStatLine.corners r)
      (PlayerStatLine.offsides r) (PlayerStatLine.saves r)
      (PlayerStatLine.goals_against r);
  stamps_set_stamps _ _ := eq_refl |}.

Global Instance GamePlayer_Stamped : Stamped GamePlayer.t := {|
  stamps := GamePlayer.base;
  set_stamps b r :=
    GamePlayer.Make (GamePlayer.id r) b (GamePlayer.player r)
      (GamePlayer.position r) (GamePlayer.game r) (GamePlayer.captain r)
      (GamePlayer.team r);
  stamps_set_stamps _ _ := eq_refl |}.

Global Instance Competition_Stamped : Stamped Competition.t := {|
  stamps := Competition.base;
  set_stamps b r :=
    Competition.Make (Competition.id r) b (Competition.name r)
      (Competition.slug r) (Competition.year r);
  stamps_set_stamps _ _ := eq_refl |}.

Global Instance StatSet_Stamped : Stamped StatSet.t := {|
  stamps := StatSet.base;
  set_stamps b r :=
    StatSet.Make (StatSet.id r) b (StatSet.attempts_on_goal r)
      (StatSet.shots_on_target r) (StatSet.shots_off_target r)
      (StatSet.blocked_shots r) (StatSet.corner_kicks r) (StatSet.fouls r)
      (StatSet.crosses r) (StatSet.offsides r) (StatSet.first_yellows r)
      (StatSet.second_yellows r) (StatSet.red_cards r) (StatSet.duels_won r)
      (StatSet.duels_won_percentage r) (StatSet.total_passes r)
      (StatSet.pass_percentage r) (StatSet.possession r) (StatSet.team r)
      (StatSet.game r);
  stamps_set_stamps _ _ := eq_refl |}.

Global Instance FormationPlayer_Stamped : Stamped FormationPlayer.t := {|
  stamps := FormationPlayer.base;
  set_stamps b r :=
    FormationPlayer.Make (FormationPlayer.id r) b (FormationPlayer.player r)
      (FormationPlayer.line r) (FormationPlayer.sort_order r);
  stamps_set_stamps _ _ := eq_refl |}.

Global Instance FormationLine_Stamped : Stamped FormationLine.t := {|
  stamps := FormationLine.base;
  set_stamps b r :=
    FormationLine.Make (FormationLine.id r) b (FormationLine.formation r)
      (FormationLine.sort_order r);
  stamps_set_stamps _ _ := eq_refl |}.

Global Instance Formation_Stamped : Stamped Formation.t := {|
  stamps := Formation.base;
  set_stamps b r :=
    Formation.Make (Formation.id r) b (Formation.team r) (Formation.game r);
  stamps_set_stamps _ _ := eq_refl |}.

Global Instance Game_Stamped : Stamped Game.t := {|
  stamps := Game.base;
  set_stamps b r :=
    Game.Make (Game.id r) b (Game.home_team r) (Game.away_team r)
      (Game.start_time r) (Game.competition r) (Game.stat_link r);
  stamps_set_stamps _ _ := eq_refl |}.

Global Instance Substitution_Stamped : Stamped Substitution.t := {|
  stamps := Substitution.base;
  set_stamps b r :=
    Substitution.Make (Substitution.id r) b (Substitution.out_player r)
      (Substitution.in_player r) (Substitution.team r)
      (Substitution.minute r);
  stamps_set_stamps _ _ := eq_refl |}.

Global Instance Goal_Stamped : Stamped Goal.t := {|
  stamps := Goal.base;
  set_stamps b r :=
    Goal.Make (Goal.id r) b (Goal.game r) (Goal.minute r) (Goal.player r)
      (Goal.penalty r) (Goal.own_goal r);
  stamps_set_stamps _ _ := eq_refl |}.

Global Instance Booking_Stamped : Stamped Booking.t := {|
  stamps := Booking.base;
  set_stamps b r :=
    Booking.Make (Booking.id r) b (Booking.game r) (Booking.minute r)
      (Booking.player r) (Booking.card_color r) (Booking.reason r);
  stamps_set_stamps _ _ := eq_refl |}.

(** [DateTimeField.pre_save(instance, add)]: the value written for the
    field by a save.  [now] is the clock reading of the save, [value] the
    attribute as the instance holds it. *)
Definition pre_save (f : Field) (add : bool) (now : Z) (value : Z) : Z :=
  match f with
  | DateTimeField auto_now auto_now_add =>
      if auto_now || (auto_now_add && add) then now else value
  | _ => value
  end.

(** [instance.save()]: [add] tells an insert from an update. *)
Definition save {A} `{Stamped A} (add : bool) (now : Z) (self : A) : A :=
  set_stamps
    (BaseModel.Make
       (pre_save BaseModel.created_field add now
          (BaseModel.created (stamps self)))
       (pre_save BaseModel.modified_field add now
          (BaseModel.modified (stamps self))))
    self.

(** A run of updates of one row: each is an edit of the instance followed
    by [save()] at the clock reading of that moment.  The result lists the
    row after each update. *)
Fixpoint updates {A} `{Stamped A} (us : list (Z * (A → A))) (self : A) : list A :=
  match us with
  | [] => []
  | (now, edit) :: us' =>
      let self' := save false now (edit self) in
      self' :: updates us' self'
  end.

(** The life of a row: its insert, then its updates. *)
Definition history {A} `{Stamped A} (t0 : Z) (new : A)
  (us : list (Z * (A → A))) : list A :=
  save true t0 new :: updates us (save true t0 new).

(** ** The migration *)

(** The schema of the store (table, column, field description), the rows
    of the Substitution table, the primary keys held by the Player and the
    GamePlayer table, and two traits of the store South drives: whether it
    enforces foreign keys, and whether it alters a column by rebuilding the
    table, which adds a column that is missing (SQLite). *)
Record Database := MkDatabase {
  db_schema : gmap string (gmap string Field);
  substitution_rows : list Substitution.t;
  player_keys : list Z;
  gameplayer_keys : list Z;
  enforces_foreign_keys : bool;
  alter_adds_missing_column : bool }.

(** The keys of the table a relation points at.  The migration points
    relations at Player and at GamePlayer only. *)
Definition referenced_keys (db : Database) (to : string) : option (list Z) :=
  if decide (to = "mls_api.Player") then Some (player_keys db)
  else if decide (to = "mls_api.GamePlayer") then Some (gameplayer_keys db)
  else None.

(** The values stored in a column; rows are kept for the two player
    columns of the Substitution table. *)
Definition column_values (db : Database) (table_name name : string) : list Z :=
  if decide (table_name = "mls_api_substitution") then
    if decide (name = "out_player_id") then
      Substitution.out_player <$> substitution_rows db
    else if decide (name = "in_player_id") then
      Substitution.in_player <$> substitution_rows db
    else []
  else [].

(** The foreign-key constraint of a field holds of the stored rows. *)
Definition foreign_key_holds (db : Database) (table_name name : string)
  (field : Field) : Prop :=
  match field with
  | ForeignKey to =>
      match referenced_keys db to with
      | Some keys => Forall (λ v, v ∈ keys) (column_values db table_name name)
      | None => True
      end
  | _ => True
  end.

Global Instance foreign_key_holds_dec db table_name name field :
  Decision (foreign_key_holds db table_name name field).
Proof.
  unfold foreign_key_holds. destruct field; try apply _.
  destruct (referenced_keys db to); apply _.
Defined.

(** South's [db.alter_column(table_name, name, field)]: the column takes
    the description [field].  The stored rows are not rewritten.  It fails
    on a table that does not exist; on a column that does not exist,
    unless the store rebuilds the table; and, where the store enforces
    foreign keys, when the constraint of [field], which South drops and
    adds again, does not hold of the stored rows. *)
Definition alter_column (table_name name : string) (field : Field)
  (db : Database) : option Database :=
  cols ← db_schema db !! table_name;
  if decide (is_Some (cols !! name) ∨ alter_adds_missing_column db = true) then
    if decide (enforces_foreign_keys db = false
               ∨ foreign_key_holds db table_name name field) then
      Some (MkDatabase
              (<[table_name := <[name := field]> cols]> (db_schema db))
              (substitution_rows db) (player_keys db) (gameplayer_keys db)
              (enforces_foreign_keys db) (alter_adds_missing_column db))
    else None
  else None.

(** Creating a Substitution row. *)
Definition create_substitution (r : Substitution.t) (db : Database) : Database :=
  MkDatabase (db_schema db) (substitution_rows db ++ [r])
    (player_keys db) (gameplayer_keys db)
    (enforces_foreign_keys db) (alter_adds_missing_column db).

Module Migration.
Definition forwards (db : Database) : option Database :=
  db' ← alter_column "mls_api_substitution" "out_player_id"
          (ForeignKey "mls_api.GamePlayer") db;
  alter_column "mls_api_substitution" "in_player_id"
    (ForeignKey "mls_api.GamePlayer") db'.

Definition backwards (db : Database) : option Database :=
  db' ← alter_column "mls_api_substitution" "out_player_id"
          (ForeignKey "mls_api.Player") db;
  alter_column "mls_api_substitution" "in_player_id"
    (ForeignKey "mls_api.Player") db'.

(** The frozen description of [mls_api.substitution], by column. *)
Definition frozen_substitution : gmap string Field :=
  list_to_map
    [ ("created", DateTimeField false true);
      ("id", AutoField);
      ("in_player_id", ForeignKey "mls_api.GamePlayer");
      ("minute", IntegerField);
      ("modified", DateTimeField true false);
      ("out_player_id", ForeignKey "mls_api.GamePlayer");
      ("team_id", ForeignKey "mls_api.Team") ].
End Migration.


(** Creating several Substitution rows, one after the other. *)
Definition create_substitutions (rs : list Substitution.t) (db : Database)
  : Database :=
  foldl (λ d r, create_substitution r d) db rs.

(** The description of a column of any table. *)
Definition schema_column (db : Database) (table_name name : string)
  : option Field :=
  cols ← db_schema db !! table_name; cols !! name.

(** Every in and out key of the rows is among [keys]. *)
Definition keys_among (keys : list Z) (rows : list Substitution.t) : Prop :=
  Forall (λ r, Substitution.out_player r ∈ keys
               ∧ Substitution.in_player r ∈ keys) rows.

(** The two [alter_column] calls of a step, for the table [to] the step
    points the columns at. *)
Definition retarget (to : string) (db : Database) : option Database :=
  db' ← alter_column "mls_api_substitution" "out_player_id" (ForeignKey to) db;
  alter_column "mls_api_substitution" "in_player_id" (ForeignKey to) db'.

(** What a step that goes through leaves behind. *)
Definition retargeted (to : string) (cols : gmap string Field) (db : Database)
  : Database :=
  MkDatabase
    (<["mls_api_substitution" :=
         <["in_player_id" := ForeignKey to]>
           (<["out_player_id" := ForeignKey to]> cols)]> (db_schema db))
    (substitution_rows db) (player_keys db) (gameplayer_keys db)
    (enforces_foreign_keys db) (alter_adds_missing_column db).

(** ** The properties as the specification words them *)

(** The score of [team] in [G], in the words of the specification: the
    goals of [G] that are not own goals and whose scorer plays for [team],
    plus the own goals of [G] whose scorer plays for another team. *)
Definition score_spec (st : Store) (G : Game.t) (team : Z) : nat :=
  (length
     (filter (λ g, Goal.game g = Game.id G ∧ Goal.own_goal g = false
                   ∧ player__team st g = Some team) (goals st))
   + length
       (filter (λ g, Goal.game g = Game.id G ∧ Goal.own_goal g = true
                     ∧ is_Some (player__team st g)
                     ∧ player__team st g ≠ Some team) (goals st)))%nat.

(** The formation string, in the words of the specification: the lines in
    sort order, the first one skipped, each replaced by its player count,
    joined by dashes. *)
Definition formation_str_spec (bk : Backend) (st : Store) (self : Formation.t)
  : string :=
  join "-"
    ((λ x, str (length (line_players st x)))
       <$> drop 1 (formationline_set bk st self)).

(** Recording one more goal. *)
Definition record_goal (g : Goal.t) (st : Store) : Store :=
  MkStore (teams st) (gameplayers st) (goals st ++ [g])
    (formationlines st) (formationplayers st).

(** The listing orders, in the words of the specification. *)
Definition by_name (bk : Backend) : relation Team.t :=
  λ a b, collate bk (Team.name a) (Team.name b) = true.

Definition by_last_then_first_name (bk : Backend) : relation Player.t :=
  λ a b,
    collate bk (Player.last_name a) (Player.last_name b) = true
    ∧ (collate bk (Player.last_name b) (Player.last_name a) = true →
       collate bk (Player.first_name a) (Player.first_name b) = true).

(** Later start times first; the games without a start time come together,
    before or after the others as the store sorts NULL. *)
Definition by_start_time_desc (bk : Backend) : relation Game.t :=
  λ a b,
    match Game.start_time a, Game.start_time b with
    | Some x, Some y => y ≤ x
    | None, None => True
    | None, Some _ => nulls_low bk = false
    | Some _, None => nulls_low bk = true
    end.

Definition by_sort_order : relation FormationLine.t :=
  λ a b, FormationLine.sort_order a ≤ FormationLine.sort_order b.

(** ** Sample data *)

Definition stamp0 : BaseModel.t := BaseModel.Make 0 0.

(** A game between teams 1 and 2 in which a player fielded for team 3
    puts the ball into his own net. *)
Definition sample_game : Game.t :=
  Game.Make 1 stamp0 1 2 (Some 100) 1 "http://example.org/1".

Definition sample_store : Store :=
  MkStore
    [ Team.Make 1 stamp0 "Home" "home"; Team.Make 2 stamp0 "Away" "away";
      Team.Make 3 stamp0 "Third" "third" ]
    [ GamePlayer.Make 10 stamp0 7 "D" 1 false 3 ]
    [ ]
    [ ]
    [ ].

Definition sample_own_goal : Goal.t := Goal.Make 1 stamp0 1 55 10 false true.

(** A store that compares strings code point by code point and sorts
    NULL below every value. *)
Definition sample_backend : Backend := MkBackend String.leb true.

Definition sample_teams : list Team.t :=
  [ Team.Make 1 stamp0 "Seattle" "seattle"; Team.Make 2 stamp0 "Dallas" "dallas";
    Team.Make 3 stamp0 "Portland" "portland" ].

Definition sample_players : list Player.t :=
  [ Player.Make 1 stamp0 "Zed" "Adams" 4 1 "D";
    Player.Make 2 stamp0 "Al" "Young" 9 1 "F";
    Player.Make 3 stamp0 "Al" "Adams" 1 2 "G" ].

Definition sample_games : list Game.t :=
  [ Game.Make 1 stamp0 1 2 (Some 100) 1 "a";
    Game.Make 2 stamp0 2 3 None 1 "b";
    Game.Make 3 stamp0 3 1 (Some 300) 1 "c" ].

(** Formation 1 has four lines of 1, 4, 3 and 3 players, stored out of
    order; formation 2 has a single line of two players. *)
Definition sample_formation_store : Store :=
  MkStore [ ]
    ((λ i, GamePlayer.Make i stamp0 i "M" 1 false 1) <$> seqZ 1 13)
    [ ]
    [ FormationLine.Make 3 stamp0 1 2; FormationLine.Make 1 stamp0 1 0;
      FormationLine.Make 5 stamp0 2 0;
      FormationLine.Make 4 stamp0 1 3; FormationLine.Make 2 stamp0 1 1 ]
    ((λ pl, FormationPlayer.Make pl.1 stamp0 pl.1 pl.2 0)
       <$> [ (1, 1); (2, 2); (3, 2); (4, 2); (5, 2); (6, 3); (7, 3); (8, 3);
             (9, 4); (10, 4); (11, 4); (12, 5); (13, 5) ]).

Definition sample_formation : Formation.t := Formation.Make 1 stamp0 1 1.
Definition sample_formation_one_line : Formation.t := Formation.Make 2 stamp0 1 1.

(** "One StatSet per team per game", as a property of the table. *)
Definition one_per_team_per_game (tbl : list StatSet.t) : Prop :=
  ∀ game team, (length (statsets_of game team tbl) ≤ 1)%nat.

Definition sample_statset (game team : Z) : StatSet.t :=
  StatSet.Make 0 stamp0 10 4 5 1 6 12 20 2 1 0 0 30 55 400 80 5150 team game.

(** A team is inserted at clock reading 10, renamed at 20, saved again
    unchanged at 20, and given a new slug at 35. *)
Definition sample_team_updates : list (Z * (Team.t → Team.t)) :=
  [ (20, λ r, Team.Make (Team.id r) (Team.base r) "Sounders" (Team.slug r));
    (20, λ r, r);
    (35, λ r, Team.Make (Team.id r) (Team.base r) (Team.name r) "sounders") ].

(** An edit that assigns [created] on a Team instance. *)
Definition Team_assign_created (v : Z) (r : Team.t) : Team.t :=
  Team.Make (Team.id r)
    (BaseModel.Make v (BaseModel.modified (Team.base r)))
    (Team.name r) (Team.slug r).

(** The Substitution table before the migration: as frozen, with the two
    relations on Player (the targets [backwards] names). *)
Definition schema_before : gmap string (gmap string Field) :=
  {[ "mls_api_substitution" :=
       <["out_player_id" := ForeignKey "mls_api.Player"]>
         (<["in_player_id" := ForeignKey "mls_api.Player"]>
            Migration.frozen_substitution) ]}.

(** A store that enforces foreign keys, with one stored row whose keys are
    keys of both Player and GamePlayer, and a row to create after the
    forward step whose keys are so too. *)
Definition sample_db_before : Database :=
  MkDatabase schema_before [ Substitution.Make 1 stamp0 4 9 1 60 ]
    [4; 9; 10; 11] [4; 9; 10; 11; 12] true false.


(** The same store with fewer players: 12 is a key of GamePlayer only. *)
Definition sample_substitution_gameplayer_only : Substitution.t :=
  Substitution.Make 2 stamp0 12 11 1 75.

(** The Substitution table as the migration freezes it. *)
Definition sample_db_after : Database :=
  MkDatabase {[ "mls_api_substitution" := Migration.frozen_substitution ]}
    [ Substitution.Make 1 stamp0 10 11 1 60 ]
    [4; 9; 10; 11] [4; 9; 10; 11; 12] true false.

(** ** Further definitions *)

(** A game between teams 1 and 2 with three goals: one by a home player,
    one by an away player, and an own goal of the away player. *)
Definition sample_store_two_teams : Store :=
  MkStore
    [ Team.Make 1 stamp0 "Home" "home"; Team.Make 2 stamp0 "Away" "away" ]
    [ GamePlayer.Make 10 stamp0 7 "F" 1 false 1;
      GamePlayer.Make 11 stamp0 8 "D" 1 false 2 ]
    [ Goal.Make 1 stamp0 1 12 10 false false;
      Goal.Make 2 stamp0 1 40 11 true false;
      Goal.Make 3 stamp0 1 77 11 false true ]
    [ ]
    [ ].

(** Recording one more FormationLine or FormationPlayer. *)
Definition record_formationline (l : FormationLine.t) (st : Store) : Store :=
  MkStore (teams st) (gameplayers st) (goals st)
    (formationlines st ++ [l]) (formationplayers st).

Definition record_formationplayer (fp : FormationPlayer.t) (st : Store) : Store :=
  MkStore (teams st) (gameplayers st) (goals st)
    (formationlines st) (formationplayers st ++ [fp]).

(** [FormationPlayer.Meta.ordering] and the listing it orders. *)
Definition FormationPlayer_Meta_ordering : list string := ["sort_order"].

Definition FormationPlayer_column (c : string) (r : FormationPlayer.t)
  : option Value :=
  if decide (c = "id") then Some (VInt (FormationPlayer.id r))
  else if decide (c = "created") then
    Some (VInt (BaseModel.created (FormationPlayer.base r)))
  else if decide (c = "modified") then
    Some (VInt (BaseModel.modified (FormationPlayer.base r)))
  else if decide (c = "player") then Some (VInt (FormationPlayer.player r))
  else if decide (c = "line") then Some (VInt (FormationPlayer.line r))
  else if decide (c = "sort_order") then
    Some (VInt (FormationPlayer.sort_order r))
  else None.

Definition FormationPlayer_objects_all (bk : Backend)
  (tbl : list FormationPlayer.t) : list FormationPlayer.t :=
  order_by bk FormationPlayer_column FormationPlayer_Meta_ordering tbl.

Definition FormationLine_objects_all (bk : Backend)
  (tbl : list FormationLine.t) : list FormationLine.t :=
  order_by bk FormationLine.column FormationLine.Meta_ordering tbl.

Definition by_player_sort_order : relation FormationPlayer.t :=
  λ a b, FormationPlayer.sort_order a ≤ FormationPlayer.sort_order b.

(** ** The class bodies of the other models frozen by the migration *)

Definition Player_class_body : list (string * ClassAttr Empty_set) :=
  [ ("first_name", AField (CharField 64));
    ("last_name", AField (CharField 64));
    ("number", AField IntegerField);
    ("team", AField (ForeignKey "Team"));
    ("position", AField (CharField 32));
    ("__unicode__", AMethod);
    ("get_absolute_url", AMethod) ].

Definition GamePlayer_class_body : list (string * ClassAttr Empty_set) :=
  [ ("player", AField (ForeignKey "Player"));
    ("position", AField (CharField 32));
    ("game", AField (ForeignKey "Game"));
    ("captain", AField BooleanField);
    ("team", AField (ForeignKey "Team"));
    ("__unicode__", AMethod) ].

Definition Substitution_class_body : list (string * ClassAttr Empty_set) :=
  [ ("out_player", AField (ForeignKey "GamePlayer"));
    ("in_player", AField (ForeignKey "GamePlayer"));
    ("team", AField (ForeignKey "Team"));
    ("minute", AField IntegerField);
    ("__unicode__", AMethod) ].

Definition Goal_class_body : list (string * ClassAttr Empty_set) :=
  [ ("game", AField (ForeignKey "Game"));
    ("minute", AField IntegerField);
    ("player", AField (ForeignKey "GamePlayer"));
    ("penalty", AField BooleanField);
    ("own_goal", AField BooleanField);
    ("assisted_by", AField (ManyToManyField "GamePlayer"));
    ("__unicode__", AMethod) ].

(** [CARD_COLOR] is a plain class attribute: like a method, it is neither
    a field nor a property. *)
Definition Booking_class_body : list (string * ClassAttr Empty_set) :=
  [ ("CARD_COLOR", AMethod);
    ("game", AField (ForeignKey "Game"));
    ("minute", AField IntegerField);
    ("player", AField (ForeignKey "GamePlayer"));
    ("card_color", AField (CharField 8));
    ("reason", AField (CharField 256));
    ("__unicode__", AMethod) ].

(** ** The frozen models of the migration, by field name *)

Definition frozen_booking : list (string * Field) :=
  [ ("card_color", CharField 8);
    ("created", DateTimeField false true);
    ("game", ForeignKey "mls_api.Game");
    ("id", AutoField);
    ("minute", IntegerField);
    ("modified", DateTimeField true false);
    ("player", ForeignKey "mls_api.GamePlayer");
    ("reason", CharField 256) ].

Definition frozen_competition : list (string * Field) :=
  [ ("created", DateTimeField false true);
    ("id", AutoField);
    ("modified", DateTimeField true false);
    ("name", CharField 128);
    ("slug", SlugField true);
    ("year", CharField 4) ].

Definition frozen_gameplayer : list (string * Field) :=
  [ ("captain", BooleanField);
    ("created", DateTimeField false true);
    ("game", ForeignKey "mls_api.Game");
    ("id", AutoField);
    ("modified", DateTimeField true false);
    ("player", ForeignKey "mls_api.Player");
    ("position", CharField 32);
    ("team", ForeignKey "mls_api.Team") ].

Definition frozen_goal : list (string * Field) :=
  [ ("assisted_by", ManyToManyField "mls_api.GamePlayer");
    ("created", DateTimeField false true);
    ("game", ForeignKey "mls_api.Game");
    ("id", AutoField);
    ("minute", IntegerField);
    ("modified", DateTimeField true false);
    ("own_goal", BooleanField);
    ("penalty", BooleanField);
    ("player", ForeignKey "mls_api.GamePlayer") ].

Definition frozen_player : list (string * Field) :=
  [ ("created", DateTimeField false true);
    ("first_name", CharField 64);
    ("id", AutoField);
    ("last_name", CharField 64);
    ("modified", DateTimeField true false);
    ("number", IntegerField);
    ("position", CharField 32);
    ("team", ForeignKey "mls_api.Team") ].

Definition frozen_statset : list (string * Field) :=
  [ ("attempts_on_goal", IntegerField);
    ("blocked_shots", IntegerField);
    ("corner_kicks", IntegerField);
    ("created", DateTimeField false true);
    ("crosses", IntegerField);
    ("duels_won", IntegerField);
    ("duels_won_percentage", IntegerField);
    ("first_yellows", IntegerField);
    ("fouls", IntegerField);
    ("game", ForeignKey "mls_api.Game");
    ("id", AutoField);
    ("modified", DateTimeField true false);
    ("offsides", IntegerField);
    ("pass_percentage", IntegerField);
    ("possession", DecimalField 2 4);
    ("red_cards", IntegerField);
    ("second_yellows", IntegerField);
    ("shots_off_target", IntegerField);
    ("shots_on_target", IntegerField);
    ("team", ForeignKey "mls_api.Team");
    ("total_passes", IntegerField) ].

Definition frozen_substitution_fields : list (string * Field) :=
  [ ("created", DateTimeField false true);
    ("id", AutoField);
    ("in_player", ForeignKey "mls_api.GamePlayer");
    ("minute", IntegerField);
    ("modified", DateTimeField true false);
    ("out_player", ForeignKey "mls_api.GamePlayer");
    ("team", ForeignKey "mls_api.Team") ].

Definition frozen_team : list (string * Field) :=
  [ ("created", DateTimeField false true);
    ("id", AutoField);
    ("modified", DateTimeField true false);
    ("name", CharField 128);
    ("slug", SlugField true) ].

(** The fields a model class ends up with: those of its class namespace,
    those it inherits from [BaseModel], and the automatic primary key;
    relations are frozen under the name of the application. *)
Definition field_of {G} (a : ClassAttr G) : option Field :=
  match a with AField f => Some f | _ => None end.

Definition qualify (f : Field) : Field :=
  match f with
  | ForeignKey to => ForeignKey ("mls_api." +:+ to)
  | ManyToManyField to => ManyToManyField ("mls_api." +:+ to)
  | _ => f
  end.

Definition model_fields {G} (body : list (string * ClassAttr G))
  : gmap string Field :=
  <["id" := AutoField]>
    (qualify <$> (omap field_of (class_namespace body)
                  ∪ omap field_of (class_namespace BaseModel.class_body))).

(** The column that stores a field: [<field>_id] for a foreign key. *)
Definition db_column (nf : string * Field) : string * Field :=
  match nf.2 with
  | ForeignKey _ => (nf.1 +:+ "_id", nf.2)
  | _ => nf
  end.

(** ** Display strings ([__unicode__]) *)

(** [u'%s %s' % (self.first_name, self.last_name)]. *)
Definition Player_unicode (self : Player.t) : string :=
  Player.first_name self +:+ " " +:+ Player.last_name self.

(** Reading the [player] attribute of a GamePlayer fetches the Player row
    ([None]: [DoesNotExist] is raised). *)
Definition fk_player (players : list Player.t) (k : Z) : option Player.t :=
  get_by_pk Player.id k players.

Definition fk_gameplayer (st : Store) (k : Z) : option GamePlayer.t :=
  get_by_pk GamePlayer.id k (gameplayers st).

(** [u'%s %s' % (self.player.first_name, self.player.last_name)]. *)
Definition GamePlayer_unicode (players : list Player.t) (self : GamePlayer.t)
  : option string :=
  p1 ← fk_player players (GamePlayer.player self);
  p2 ← fk_player players (GamePlayer.player self);
  Some (Player.first_name p1 +:+ " " +:+ Player.last_name p2).

(** [u'Stats for %s' % self.player]. *)
Definition PlayerStatLine_unicode (players : list Player.t) (st : Store)
  (self : PlayerStatLine.t) : option string :=
  gp ← fk_gameplayer st (PlayerStatLine.player self);
  s ← GamePlayer_unicode players gp;
  Some ("Stats for " +:+ s).

(** [u"Goal by %s at %s'" % (self.player, self.minute)]. *)
Definition Goal_unicode (players : list Player.t) (st : Store) (self : Goal.t)
  : option string :=
  gp ← fk_gameplayer st (Goal.player self);
  s ← GamePlayer_unicode players gp;
  Some ("Goal by " +:+ s +:+ " at " +:+ pretty (Goal.minute self) +:+ "'").

(** [u'%s in for %s at %s' % (self.in_player, self.out_player, self.minute)]. *)
Definition Substitution_unicode (players : list Player.t) (st : Store)
  (self : Substitution.t) : option string :=
  gp_in ← fk_gameplayer st (Substitution.in_player self);
  s_in ← GamePlayer_unicode players gp_in;
  gp_out ← fk_gameplayer st (Substitution.out_player self);
  s_out ← GamePlayer_unicode players gp_out;
  Some (s_in +:+ " in for " +:+ s_out +:+ " at "
        +:+ pretty (Substitution.minute self)).

(** The Player row behind a GamePlayer key, through both relations. *)
Definition player_behind (players : list Player.t) (st : Store) (k : Z)
  : option Player.t :=
  gp ← fk_gameplayer st k; fk_player players (GamePlayer.player gp).

(** * Proofs *)

(** ** Querysets *)

Lemma joined_eq_Some j k : joined_eq j k ↔ j = Some k.
Proof. destruct j; simpl; naive_solver. Qed.

Lemma joined_ne_Some j k : joined_ne j k ↔ is_Some j ∧ j ≠ Some k.
Proof.
  destruct j as [x|]; simpl.
  - split; [intros Hx; split; [by eexists | congruence] | intros [_ Hx] ->; done].
  - split; [done | intros [[? ?] _]; done].
Qed.

Lemma get_by_pk_Some {A} (pk : A → Z) k tbl r :
  get_by_pk pk k tbl = Some r → r ∈ tbl ∧ pk r = k.
Proof.
  unfold get_by_pk. destruct (list_find _ tbl) as [[i x]|] eqn:Hf; [|done].
  intros [= <-]. apply list_find_Some in Hf as (Hi & Hx & _).
  split; [by eapply list_elem_of_lookup_2 | done].
Qed.

Lemma retrieve_goal_count_spec st G team :
  _retrieve_goal_count st G team = score_spec st G team.
Proof.
  unfold _retrieve_goal_count, score_spec, exclude_player__team, goal_set,
    qs_count, qs_filter.
  rewrite !list_filter_filter, Nat.add_comm. f_equal.
  - f_equal. apply list_filter_iff. intros g.
    rewrite joined_eq_Some. tauto.
  - f_equal. apply list_filter_iff. intros g.
    rewrite joined_ne_Some. tauto.
Qed.

Lemma retrieve_goal_count_record_own_goal st G g team t' :
  Goal.game g = Game.id G → Goal.own_goal g = true →
  player__team st g = Some t' → t' ≠ team →
  _retrieve_goal_count (record_goal g st) G team
  = S (_retrieve_goal_count st G team).
Proof.
  intros Hgame Hown Hteam Hne.
  rewrite !retrieve_goal_count_spec. unfold score_spec, player__team in *.
  simpl. rewrite !filter_app, !length_app.
  rewrite (filter_cons_False _ g []).
  2:{ intros (_ & Hf & _). congruence. }
  rewrite (filter_cons_True _ g []).
  2:{ rewrite Hteam. split_and!; [done|done|by eexists|congruence]. }
  simpl. lia.
Qed.

(** ** Game scores *)

Lemma fk_team_id st k team : fk_team st k = Some team → Team.id team = k.
Proof. intros H. by apply get_by_pk_Some in H as [_ ?]. Qed.

Lemma home_score_spec st G :
  home_score st G
  = (λ _, score_spec st G (Game.home_team G)) <$> fk_team st (Game.home_team G).
Proof.
  unfold home_score. destruct (fk_team st (Game.home_team G)) as [team|] eqn:Ht;
    simpl; [|done].
  by rewrite retrieve_goal_count_spec, (fk_team_id _ _ _ Ht).
Qed.

Lemma away_score_spec st G :
  away_score st G
  = (λ _, score_spec st G (Game.away_team G)) <$> fk_team st (Game.away_team G).
Proof.
  unfold away_score. destruct (fk_team st (Game.away_team G)) as [team|] eqn:Ht;
    simpl; [|done].
  by rewrite retrieve_goal_count_spec, (fk_team_id _ _ _ Ht).
Qed.

(** C1. For every game [G] and every team, the derived score
    ([_retrieve_goal_count], which [home_score] and [away_score] call on the
    home and on the away team) is the number of goals of [G] that are not
    own goals and whose scorer's GamePlayer row has that team, plus the
    number of own goals of [G] whose scorer's GamePlayer row has another
    team. *)
Theorem score_counts_goals_and_opposing_own_goals st G team :
  _retrieve_goal_count st G team = score_spec st G team
  ∧ home_score st G
    = (λ _, score_spec st G (Game.home_team G))
        <$> fk_team st (Game.home_team G)
  ∧ away_score st G
    = (λ _, score_spec st G (Game.away_team G))
        <$> fk_team st (Game.away_team G).
Proof.
  split_and!;
    [apply retrieve_goal_count_spec | apply home_score_spec | apply away_score_spec].
Qed.

Lemma goal_set_record_goal st G g :
  Goal.game g = Game.id G →
  goal_set (record_goal g st) G = goal_set st G ++ [g].
Proof.
  intros Hg. unfold goal_set, qs_filter. simpl.
  by rewrite filter_app, (filter_cons_True _ g []).
Qed.

Lemma own_goal_counted st G g team t' :
  g ∈ goal_set st G → Goal.own_goal g = true →
  player__team st g = Some t' → t' ≠ team →
  g ∈ exclude_player__team st team
        (qs_filter (λ g, Goal.own_goal g = true) (goal_set st G)).
Proof.
  intros Hin Hown Hteam Hne. unfold exclude_player__team, qs_filter.
  apply list_elem_of_filter. split; [by rewrite Hteam|].
  by apply list_elem_of_filter.
Qed.

(** C9. An own goal of game [G] whose scorer's GamePlayer row has a team
    that is neither the home nor the away team is in the queryset of own
    goals counted for the home team and in the one counted for the away
    team; recording such a goal raises both counts by one while the goals
    of the game grow by one; and there is a game whose two scores add up to
    more than its number of goals. *)
Theorem third_team_own_goal_counts_for_both st G g t' :
  Goal.game g = Game.id G → Goal.own_goal g = true →
  player__team st g = Some t' →
  t' ≠ Game.home_team G → t' ≠ Game.away_team G →
  (g ∈ goals st →
     g ∈ exclude_player__team st (Game.home_team G)
           (qs_filter (λ g, Goal.own_goal g = true) (goal_set st G))
     ∧ g ∈ exclude_player__team st (Game.away_team G)
             (qs_filter (λ g, Goal.own_goal g = true) (goal_set st G)))
  ∧ _retrieve_goal_count (record_goal g st) G (Game.home_team G)
    = S (_retrieve_goal_count st G (Game.home_team G))
  ∧ _retrieve_goal_count (record_goal g st) G (Game.away_team G)
    = S (_retrieve_goal_count st G (Game.away_team G))
  ∧ length (goal_set (record_goal g st) G) = S (length (goal_set st G))
  ∧ ∃ st0 G0 h a,
      home_score st0 G0 = Some h ∧ away_score st0 G0 = Some a
      ∧ (length (goal_set st0 G0) < h + a)%nat.
Proof.
  intros Hgame Hown Hteam Hh Ha. split_and!.
  - intros Hin.
    assert (g ∈ goal_set st G) as Hset.
    { unfold goal_set, qs_filter. by apply list_elem_of_filter. }
    split; by eapply own_goal_counted.
  - by eapply retrieve_goal_count_record_own_goal.
  - by eapply retrieve_goal_count_record_own_goal.
  - rewrite goal_set_record_goal, length_app by done. simpl. lia.
  - exists (record_goal sample_own_goal sample_store), sample_game, 1%nat, 1%nat.
    split_and!; [done | done | vm_compute; lia].
Qed.

Lemma third_team_own_goal_counts_for_both_witness :
  _retrieve_goal_count (record_goal sample_own_goal sample_store) sample_game 1
  = 1%nat
  ∧ _retrieve_goal_count (record_goal sample_own_goal sample_store) sample_game 2
    = 1%nat
  ∧ length (goal_set (record_goal sample_own_goal sample_store) sample_game)
    = 1%nat.
Proof.
  pose proof (third_team_own_goal_counts_for_both sample_store sample_game
                sample_own_goal 3 eq_refl eq_refl eq_refl
                ltac:(done) ltac:(done)) as (_ & Hh & Ha & Hn & _).
  split_and!; [exact Hh | exact Ha | exact Hn].
Defined.

(** ** The scores are properties, not columns *)

Lemma Game_namespace_home_score :
  class_namespace Game.class_body !! "home_score"
  = Some (AProperty Game.HomeScore).
Proof. vm_compute. reflexivity. Qed.

Lemma Game_namespace_away_score :
  class_namespace Game.class_body !! "away_score"
  = Some (AProperty Game.AwayScore).
Proof. vm_compute. reflexivity. Qed.

Lemma Game_fields_frozen :
  local_fields Game.class_body ∪ local_fields BaseModel.class_body ∪ {["id"]}
  = list_to_set (frozen_game.*1).
Proof. refine (bool_decide_unpack _ _). vm_compute. exact I. Qed.

Lemma Game_scores_not_fields :
  ("home_score" ∉ local_fields Game.class_body)
  ∧ ("away_score" ∉ local_fields Game.class_body).
Proof. split; refine (bool_decide_unpack _ _); vm_compute; exact I. Qed.

Lemma Game_getattr_home_score st self :
  Game_getattr st self "home_score"
  = (λ n, VInt (Z.of_nat n)) <$> home_score st (row self).
Proof. unfold Game_getattr. by rewrite Game_namespace_home_score. Qed.

Lemma Game_getattr_away_score st self :
  Game_getattr st self "away_score"
  = (λ n, VInt (Z.of_nat n)) <$> away_score st (row self).
Proof. unfold Game_getattr. by rewrite Game_namespace_away_score. Qed.

Lemma Game_setattr_score v self :
  Game_setattr "home_score" v self = None
  ∧ Game_setattr "away_score" v self = None.
Proof.
  unfold Game_setattr.
  by rewrite Game_namespace_home_score, Game_namespace_away_score.
Qed.

Lemma Game_writes_score ws self name v :
  (name, v) ∈ ws → name = "home_score" ∨ name = "away_score" →
  Game_writes ws self = None.
Proof.
  intros Hin Hname. revert self.
  induction ws as [|[n w] ws IH]; intros self; [by apply elem_of_nil in Hin|].
  simpl. apply elem_of_cons in Hin as [[= <- <-]|Hin].
  - destruct Hname as [-> | ->];
      [rewrite (proj1 (Game_setattr_score v self))
      |rewrite (proj2 (Game_setattr_score v self))]; done.
  - destruct (Game_setattr n w self) as [self'|]; simpl; [by apply IH | done].
Qed.

(** C2. In the class namespace of Game the names [home_score] and
    [away_score] are bound to the properties (the later bindings of the
    class body), so they are not among the fields of the model, as the
    frozen description of the migration also has it, and a row holds no
    score.  On every instance, whatever its attributes hold, reading
    [home_score] or [away_score] gives the count recomputed from the Goal
    table for the instance's home or away team.  Assigning either attribute
    raises, so no run of assignments that writes a score goes through. *)
Theorem scores_recomputed_never_stored :
  class_namespace Game.class_body !! "home_score"
    = Some (AProperty Game.HomeScore)
  ∧ class_namespace Game.class_body !! "away_score"
    = Some (AProperty Game.AwayScore)
  ∧ ("home_score" ∉ local_fields Game.class_body)
  ∧ ("away_score" ∉ local_fields Game.class_body)
  ∧ local_fields Game.class_body ∪ local_fields BaseModel.class_body ∪ {["id"]}
    = list_to_set (frozen_game.*1)
  ∧ (∀ r, Game.column "home_score" r = None ∧ Game.column "away_score" r = None)
  ∧ (∀ st self,
       Game_getattr st self "home_score"
       = (λ _, VInt (Z.of_nat
                       (score_spec st (row self) (Game.home_team (row self)))))
           <$> fk_team st (Game.home_team (row self))
       ∧ Game_getattr st self "away_score"
         = (λ _, VInt (Z.of_nat
                         (score_spec st (row self) (Game.away_team (row self)))))
             <$> fk_team st (Game.away_team (row self)))
  ∧ (∀ v self, Game_setattr "home_score" v self = None
               ∧ Game_setattr "away_score" v self = None)
  ∧ (∀ ws self name v,
       (name, v) ∈ ws → name = "home_score" ∨ name = "away_score" →
       Game_writes ws self = None).
Proof.
  split_and!.
  - apply Game_namespace_home_score.
  - apply Game_namespace_away_score.
  - apply Game_scores_not_fields.
  - apply Game_scores_not_fields.
  - apply Game_fields_frozen.
  - done.
  - intros st self.
    rewrite Game_getattr_home_score, Game_getattr_away_score,
      home_score_spec, away_score_spec.
    by rewrite <- !option_fmap_compose.
  - apply Game_setattr_score.
  - apply Game_writes_score.
Qed.

Lemma scores_recomputed_never_stored_witness :
  Game_writes [("stat_link", VStr "x"); ("home_score", VInt 5)]
    (MkGameInstance sample_game ∅) = None.
Proof.
  pose proof scores_recomputed_never_stored as (_ & _ & _ & _ & _ & _ & _ & _ & H).
  apply (H [("stat_link", VStr "x"); ("home_score", VInt 5)]
           (MkGameInstance sample_game ∅) "home_score" (VInt 5)).
  - apply elem_of_cons. right. apply elem_of_cons. by left.
  - by left.
Defined.

(** ** Default ordering *)

Lemma StronglySorted_weaken {A} (R1 R2 : relation A) l :
  (∀ x y, R1 x y → R2 x y) → StronglySorted R1 l → StronglySorted R2 l.
Proof.
  intros HR. induction 1 as [|x l Hl IH Hx]; constructor; [done|].
  eapply Forall_impl; [exact Hx | auto].
Qed.

(** Sorting by the ordering tuple sorts by any total preorder the tuple
    amounts to, and keeps the rows. *)
Lemma order_by_sorted {A} bk (column : string → A → option Value) ordering
    (R : relation A) :
  (∀ a b, rows_le bk column ordering a b ↔ R a b) →
  Transitive R → Total R →
  ∀ qs, StronglySorted R (order_by bk column ordering qs)
        ∧ order_by bk column ordering qs ≡ₚ qs.
Proof.
  intros HR Htrans Htot qs. split; [|apply merge_sort_Permutation].
  apply (StronglySorted_weaken (rows_le bk column ordering)); [apply HR|].
  apply StronglySorted_merge_sort.
  - intros a b c Hab Hbc. apply HR. etrans; by apply HR.
  - intros a b. destruct (Htot a b); [left | right]; by apply HR.
Qed.

Lemma rows_le_Team bk a b :
  rows_le bk Team.column Team.Meta_ordering a b ↔ by_name bk a b.
Proof.
  unfold rows_le, by_name. cbn [rows_leb Team.Meta_ordering].
  change (term_leb bk Team.column "name" a b)
    with (collate bk (Team.name a) (Team.name b)).
  destruct (collate bk (Team.name a) (Team.name b)); [|done].
  by destruct (term_leb _ _ _ b a).
Qed.

Lemma rows_le_Player bk a b :
  rows_le bk Player.column Player.Meta_ordering a b
  ↔ by_last_then_first_name bk a b.
Proof.
  unfold rows_le, by_last_then_first_name.
  cbn [rows_leb Player.Meta_ordering].
  change (term_leb bk Player.column "last_name" a b)
    with (collate bk (Player.last_name a) (Player.last_name b)).
  change (term_leb bk Player.column "last_name" b a)
    with (collate bk (Player.last_name b) (Player.last_name a)).
  change (term_leb bk Player.column "first_name" a b)
    with (collate bk (Player.first_name a) (Player.first_name b)).
  destruct (collate bk (Player.last_name a) (Player.last_name b));
    [|split; [done | by intros [? _]]].
  destruct (collate bk (Player.last_name b) (Player.last_name a));
    [|split; [by intros _; split | done]].
  destruct (collate bk (Player.first_name a) (Player.first_name b)).
  - by destruct (term_leb _ _ _ b a).
  - split; [done | intros [_ H]; by apply H].
Qed.

Lemma rows_le_Game bk a b :
  rows_le bk Game.column Game.Meta_ordering a b ↔ by_start_time_desc bk a b.
Proof.
  unfold rows_le, by_start_time_desc. cbn [rows_leb Game.Meta_ordering].
  change (term_leb bk Game.column "-start_time" a b)
    with (value_leb bk
            (match Game.start_time b with Some t => VInt t | None => VNull end)
            (match Game.start_time a with Some t => VInt t | None => VNull end)).
  change (term_leb bk Game.column "-start_time" b a)
    with (value_leb bk
            (match Game.start_time a with Some t => VInt t | None => VNull end)
            (match Game.start_time b with Some t => VInt t | None => VNull end)).
  destruct (Game.start_time a) as [x|], (Game.start_time b) as [y|]; simpl.
  - destruct (Z.leb_spec y x), (Z.leb_spec x y); split; (done || lia).
  - by destruct (nulls_low bk).
  - by destruct (nulls_low bk).
  - done.
Qed.

Lemma rows_le_FormationLine bk a b :
  rows_le bk FormationLine.column FormationLine.Meta_ordering a b
  ↔ by_sort_order a b.
Proof.
  unfold rows_le, by_sort_order. cbn [rows_leb FormationLine.Meta_ordering].
  change (term_leb bk FormationLine.column "sort_order" a b)
    with (FormationLine.sort_order a <=? FormationLine.sort_order b).
  change (term_leb bk FormationLine.column "sort_order" b a)
    with (FormationLine.sort_order b <=? FormationLine.sort_order a).
  destruct (Z.leb_spec (FormationLine.sort_order a) (FormationLine.sort_order b)),
    (Z.leb_spec (FormationLine.sort_order b) (FormationLine.sort_order a));
    split; (done || lia).
Qed.

Lemma StronglySorted_lookup_lt {A} (R : relation A) l i j a b :
  StronglySorted R l → (i < j)%nat →
  l !! i = Some a → l !! j = Some b → R a b.
Proof.
  intros Hs. revert i j. induction Hs as [|x l Hl IH Hx]; intros i j Hij Ha Hb.
  - done.
  - destruct j as [|j]; [lia|]. destruct i as [|i]; simpl in *.
    + injection Ha as <-. eapply Forall_forall; [exact Hx|].
      by eapply list_elem_of_lookup_2.
    + apply (IH i j); [lia | done | done].
Qed.

Lemma ascii_compare_refl c : Ascii.compare c c = Eq.
Proof. unfold Ascii.compare. apply N.compare_refl. Qed.

Lemma ascii_compare_Lt_trans a b c :
  Ascii.compare a b = Lt → Ascii.compare b c = Lt → Ascii.compare a c = Lt.
Proof.
  unfold Ascii.compare. rewrite !N.compare_lt_iff. apply N.lt_trans.
Qed.

Lemma string_compare_trans s1 : ∀ s2 s3,
  String.compare s1 s2 ≠ Gt → String.compare s2 s3 ≠ Gt →
  String.compare s1 s3 ≠ Gt.
Proof.
  induction s1 as [|c1 s1 IH]; intros [|c2 s2] [|c3 s3]; simpl; try done.
  destruct (Ascii.compare c1 c2) eqn:H12; [| |done];
    destruct (Ascii.compare c2 c3) eqn:H23; try done.
  - apply Ascii.compare_eq_iff in H12 as ->.
    apply Ascii.compare_eq_iff in H23 as ->.
    rewrite ascii_compare_refl. apply IH.
  - apply Ascii.compare_eq_iff in H12 as ->. by rewrite H23.
  - apply Ascii.compare_eq_iff in H23 as <-. by rewrite H12.
  - by rewrite (ascii_compare_Lt_trans _ _ _ H12 H23).
Qed.

Lemma string_leb_trans s1 s2 s3 :
  String.leb s1 s2 = true → String.leb s2 s3 = true → String.leb s1 s3 = true.
Proof.
  unfold String.leb. intros H12 H23.
  pose proof (string_compare_trans s1 s2 s3) as H.
  destruct (String.compare s1 s2), (String.compare s2 s3),
    (String.compare s1 s3); try done; exfalso; by apply H.
Qed.

Section listing.
Context (bk : Backend).
Hypothesis collate_total :
  ∀ a b, collate bk a b = true ∨ collate bk b a = true.
Hypothesis collate_trans :
  ∀ a b c, collate bk a b = true → collate bk b c = true →
           collate bk a c = true.

Lemma by_name_preorder : Transitive (by_name bk) ∧ Total (by_name bk).
Proof.
  split.
  - intros a b c. apply collate_trans.
  - intros a b. apply collate_total.
Qed.

Lemma by_last_then_first_name_preorder :
  Transitive (by_last_then_first_name bk)
  ∧ Total (by_last_then_first_name bk).
Proof.
  split.
  - intros a b c [Hab Hab'] [Hbc Hbc']. split; [by eapply collate_trans|].
    intros Hca. eapply collate_trans.
    + apply Hab'. by eapply collate_trans.
    + apply Hbc'. by eapply collate_trans.
  - intros a b. unfold by_last_then_first_name.
    destruct (collate bk (Player.last_name a) (Player.last_name b)) eqn:Hab,
      (collate bk (Player.last_name b) (Player.last_name a)) eqn:Hba.
    + destruct (collate_total (Player.first_name a) (Player.first_name b));
        [left | right]; done.
    + by left.
    + by right.
    + destruct (collate_total (Player.last_name a) (Player.last_name b));
        congruence.
Qed.

Lemma by_start_time_desc_preorder :
  Transitive (by_start_time_desc bk) ∧ Total (by_start_time_desc bk).
Proof.
  unfold by_start_time_desc. split.
  - intros a b c.
    destruct (Game.start_time a), (Game.start_time b), (Game.start_time c),
      (nulls_low bk); (done || lia).
  - intros a b.
    destruct (Game.start_time a), (Game.start_time b), (nulls_low bk);
      (lia || tauto).
Qed.

(** C7. Listing Teams gives the stored teams ordered by name; listing
    Players gives the stored players ordered by last name, players whose
    last names tie ordered by first name; listing Games gives the stored
    games with later start times first.  The order of strings is the
    collation of the store, a total preorder. *)
Theorem listings_follow_declared_ordering
    (tbl_t : list Team.t) (tbl_p : list Player.t) (tbl_g : list Game.t) :
  (Team_objects_all bk tbl_t ≡ₚ tbl_t
   ∧ StronglySorted (by_name bk) (Team_objects_all bk tbl_t))
  ∧ (Player_objects_all bk tbl_p ≡ₚ tbl_p
     ∧ StronglySorted (by_last_then_first_name bk)
         (Player_objects_all bk tbl_p))
  ∧ (Game_objects_all bk tbl_g ≡ₚ tbl_g
     ∧ StronglySorted (by_start_time_desc bk) (Game_objects_all bk tbl_g)
     ∧ ∀ i j a b x y,
         (i < j)%nat →
         Game_objects_all bk tbl_g !! i = Some a →
         Game_objects_all bk tbl_g !! j = Some b →
         Game.start_time a = Some x → Game.start_time b = Some y →
         y ≤ x).
Proof.
  split_and!.
  - apply (order_by_sorted _ _ _ _ (rows_le_Team bk)); apply by_name_preorder.
  - apply (order_by_sorted _ _ _ _ (rows_le_Team bk)); apply by_name_preorder.
  - apply (order_by_sorted _ _ _ _ (rows_le_Player bk));
      apply by_last_then_first_name_preorder.
  - apply (order_by_sorted _ _ _ _ (rows_le_Player bk));
      apply by_last_then_first_name_preorder.
  - apply (order_by_sorted _ _ _ _ (rows_le_Game bk));
      apply by_start_time_desc_preorder.
  - apply (order_by_sorted _ _ _ _ (rows_le_Game bk));
      apply by_start_time_desc_preorder.
  - intros i j a b x y Hij Ha Hb Hx Hy.
    assert (StronglySorted (by_start_time_desc bk) (Game_objects_all bk tbl_g))
      as Hs.
    { apply (order_by_sorted _ _ _ _ (rows_le_Game bk));
        apply by_start_time_desc_preorder. }
    pose proof (StronglySorted_lookup_lt _ _ i j a b Hs Hij Ha Hb) as Hl.
    unfold by_start_time_desc in Hl. by rewrite Hx, Hy in Hl.
Qed.
End listing.

Lemma listings_follow_declared_ordering_witness :
  StronglySorted (by_name sample_backend)
    (Team_objects_all sample_backend sample_teams)
  ∧ StronglySorted (by_last_then_first_name sample_backend)
      (Player_objects_all sample_backend sample_players)
  ∧ StronglySorted (by_start_time_desc sample_backend)
      (Game_objects_all sample_backend sample_games).
Proof.
  pose proof (listings_follow_declared_ordering sample_backend
                String.leb_total string_leb_trans
                sample_teams sample_players sample_games)
    as ((_ & Ht) & (_ & Hp) & (_ & Hg & _)).
  split_and!; [exact Ht | exact Hp | exact Hg].
Defined.

Example sample_teams_listed :
  Team.name <$> Team_objects_all sample_backend sample_teams
  = ["Dallas"; "Portland"; "Seattle"].
Proof. vm_compute. reflexivity. Qed.

Example sample_players_listed :
  Player.id <$> Player_objects_all sample_backend sample_players = [3; 1; 2].
Proof. vm_compute. reflexivity. Qed.

Example sample_games_listed :
  Game.id <$> Game_objects_all sample_backend sample_games = [3; 1; 2].
Proof. vm_compute. reflexivity. Qed.

(** ** Formation strings *)

Lemma by_sort_order_preorder : Transitive by_sort_order ∧ Total by_sort_order.
Proof.
  unfold by_sort_order.
  split; [intros a b c; lia | intros a b; lia].
Qed.

Lemma formationline_set_sorted bk st self :
  StronglySorted by_sort_order (formationline_set bk st self)
  ∧ formationline_set bk st self
    ≡ₚ filter (λ l, FormationLine.formation l = Formation.id self)
         (formationlines st).
Proof.
  apply (order_by_sorted _ _ _ _ (rows_le_FormationLine bk));
    apply by_sort_order_preorder.
Qed.

Lemma formation_str_refines bk st self :
  formation_str bk st self = formation_str_spec bk st self.
Proof.
  unfold formation_str, formation_str_spec, qs_count. by rewrite fmap_drop.
Qed.

(** C4. The lines [formation_str] walks are the FormationLines of the
    formation in ascending [sort_order]; the string is the dash-joined
    sequence of the player counts of these lines with the first line
    skipped; a formation whose lines hold 1, 4, 3 and 3 players gives
    ["4-3-3"]. *)
Theorem formation_str_joins_line_counts bk st self :
  StronglySorted by_sort_order (formationline_set bk st self)
  ∧ formationline_set bk st self
    ≡ₚ filter (λ l, FormationLine.formation l = Formation.id self)
         (formationlines st)
  ∧ formation_str bk st self = formation_str_spec bk st self
  ∧ ((λ x, length (line_players st x)) <$> formationline_set bk st self
     = [1; 4; 3; 3]%nat →
     formation_str bk st self = "4-3-3").
Proof.
  split_and!.
  - apply formationline_set_sorted.
  - apply formationline_set_sorted.
  - apply formation_str_refines.
  - intros Hsizes. unfold formation_str, qs_count.
    rewrite (list_fmap_compose (λ x, length (line_players st x)) str), Hsizes.
    vm_compute. reflexivity.
Qed.

Lemma formation_str_joins_line_counts_witness :
  formation_str sample_backend sample_formation_store sample_formation = "4-3-3".
Proof.
  apply (formation_str_joins_line_counts sample_backend sample_formation_store
           sample_formation).
  vm_compute. reflexivity.
Defined.

(** C10. A formation with no line or with a single line has the empty
    string as its [formation_str]. *)
Theorem formation_str_empty_below_two_lines bk st self :
  (length (filter (λ l, FormationLine.formation l = Formation.id self)
             (formationlines st)) < 2)%nat →
  formation_str bk st self = "".
Proof.
  intros Hlen.
  destruct (formationline_set_sorted bk st self) as [_ Hperm].
  apply Permutation_length in Hperm. unfold formation_str.
  destruct (formationline_set bk st self) as [|x [|y l]]; simpl in *;
    [done | done | lia].
Qed.

Lemma formation_str_empty_below_two_lines_witness :
  formation_str sample_backend sample_formation_store sample_formation_one_line
  = "".
Proof.
  apply (formation_str_empty_below_two_lines sample_backend
           sample_formation_store sample_formation_one_line).
  vm_compute. lia.
Defined.

Example sample_one_line_has_two_players :
  (λ x, length (line_players sample_formation_store x))
    <$> formationline_set sample_backend sample_formation_store
          sample_formation_one_line
  = [2%nat].
Proof. vm_compute. reflexivity. Qed.

(** ** Uniqueness constraints *)

Lemma Team_unique_fields : unique_fields Team.class_body = ["slug"].
Proof. vm_compute. reflexivity. Qed.

Lemma Competition_unique_fields : unique_fields Competition.class_body = ["slug"].
Proof. vm_compute. reflexivity. Qed.

Lemma StatSet_unique_fields : unique_fields StatSet.class_body = [].
Proof. vm_compute. reflexivity. Qed.

Lemma Team_violates new tbl :
  violates Team.class_body [] Team.column new tbl
  ↔ ∃ old, old ∈ tbl ∧ Team.slug old = Team.slug new.
Proof.
  unfold violates, constraints. rewrite Team_unique_fields. simpl.
  rewrite Exists_cons, Exists_nil, Exists_exists. unfold collides.
  split.
  - intros [(old & Hin & Hc)|[]]. exists old. split; [done|].
    apply Forall_cons in Hc as [[Hc _] _]. by injection Hc.
  - intros (old & Hin & Hslug). left. exists old. split; [done|].
    apply Forall_cons. split; [|done].
    change (Some (VStr (Team.slug old)) = Some (VStr (Team.slug new))
            ∧ Some (VStr (Team.slug new)) ≠ Some VNull).
    by rewrite Hslug.
Qed.

Lemma Competition_violates new tbl :
  violates Competition.class_body [] Competition.column new tbl
  ↔ ∃ old, old ∈ tbl ∧ Competition.slug old = Competition.slug new.
Proof.
  unfold violates, constraints. rewrite Competition_unique_fields. simpl.
  rewrite Exists_cons, Exists_nil, Exists_exists. unfold collides.
  split.
  - intros [(old & Hin & Hc)|[]]. exists old. split; [done|].
    apply Forall_cons in Hc as [[Hc _] _]. by injection Hc.
  - intros (old & Hin & Hslug). left. exists old. split; [done|].
    apply Forall_cons. split; [|done].
    change (Some (VStr (Competition.slug old))
            = Some (VStr (Competition.slug new))
            ∧ Some (VStr (Competition.slug new)) ≠ Some VNull).
    by rewrite Hslug.
Qed.

Lemma Team_insert_keeps_slugs_distinct new tbl tbl' :
  NoDup (Team.slug <$> tbl) → Team_insert new tbl = Ok tbl' →
  NoDup (Team.slug <$> tbl').
Proof.
  intros Hnd. unfold Team_insert, insert.
  destruct (decide _) as [|Hv]; [done|]. intros [= <-].
  rewrite fmap_app. apply NoDup_app. split_and!; [done | | apply NoDup_singleton].
  intros x (old & -> & Hin)%list_elem_of_fmap Hx. simpl in Hx.
  apply list_elem_of_singleton in Hx.
  apply Hv, Team_violates. eauto.
Qed.

Lemma Competition_insert_keeps_slugs_distinct new tbl tbl' :
  NoDup (Competition.slug <$> tbl) → Competition_insert new tbl = Ok tbl' →
  NoDup (Competition.slug <$> tbl').
Proof.
  intros Hnd. unfold Competition_insert, insert.
  destruct (decide _) as [|Hv]; [done|]. intros [= <-].
  rewrite fmap_app. apply NoDup_app. split_and!; [done | | apply NoDup_singleton].
  intros x (old & -> & Hin)%list_elem_of_fmap Hx. simpl in Hx.
  apply list_elem_of_singleton in Hx.
  apply Hv, Competition_violates. eauto.
Qed.

(** C5. Inserting a Team whose slug is the slug of a stored Team fails,
    and so does inserting a Competition whose slug is the slug of a stored
    Competition; a slug that is not yet stored never makes the insert
    fail; and an insert that goes through leaves the slugs of the table
    pairwise distinct if they were. *)
Theorem duplicate_slug_insert_fails :
  (∀ new tbl old,
     old ∈ tbl → Team.slug old = Team.slug new →
     Team_insert new tbl = IntegrityError)
  ∧ (∀ new tbl old,
       old ∈ tbl → Competition.slug old = Competition.slug new →
       Competition_insert new tbl = IntegrityError)
  ∧ (∀ new tbl,
       (∀ old, old ∈ tbl → Team.slug old ≠ Team.slug new) →
       Team_insert new tbl
       = Ok (tbl ++ [Team_set_pk (next_pk Team.id tbl) new]))
  ∧ (∀ new tbl,
       (∀ old, old ∈ tbl → Competition.slug old ≠ Competition.slug new) →
       Competition_insert new tbl
       = Ok (tbl ++ [Competition_set_pk (next_pk Competition.id tbl) new]))
  ∧ (∀ new tbl tbl',
       NoDup (Team.slug <$> tbl) → Team_insert new tbl = Ok tbl' →
       NoDup (Team.slug <$> tbl'))
  ∧ (∀ new tbl tbl',
       NoDup (Competition.slug <$> tbl) → Competition_insert new tbl = Ok tbl' →
       NoDup (Competition.slug <$> tbl')).
Proof.
  split_and!.
  - intros new tbl old Hin Hslug. unfold Team_insert, insert.
    rewrite decide_True; [done|]. apply Team_violates. eauto.
  - intros new tbl old Hin Hslug. unfold Competition_insert, insert.
    rewrite decide_True; [done|]. apply Competition_violates. eauto.
  - intros new tbl Hfresh. unfold Team_insert, insert.
    rewrite decide_False; [done|].
    intros (old & Hin & Hslug)%Team_violates. by eapply Hfresh.
  - intros new tbl Hfresh. unfold Competition_insert, insert.
    rewrite decide_False; [done|].
    intros (old & Hin & Hslug)%Competition_violates. by eapply Hfresh.
  - apply Team_insert_keeps_slugs_distinct.
  - apply Competition_insert_keeps_slugs_distinct.
Qed.

Lemma duplicate_slug_insert_fails_witness :
  Team_insert (Team.Make 0 stamp0 "Dallas Reserves" "dallas") sample_teams
  = IntegrityError.
Proof.
  apply (proj1 duplicate_slug_insert_fails
           (Team.Make 0 stamp0 "Dallas Reserves" "dallas") sample_teams
           (Team.Make 2 stamp0 "Dallas" "dallas")).
  - apply elem_of_cons. right. apply elem_of_cons. by left.
  - reflexivity.
Defined.

Lemma StatSet_no_constraint new tbl :
  ¬ violates StatSet.class_body StatSet.Meta_unique_together StatSet.column
      new tbl.
Proof.
  unfold violates, constraints, StatSet.Meta_unique_together.
  rewrite StatSet_unique_fields. simpl. by intros ?%Exists_nil.
Qed.

Lemma StatSet_insert_accepted store_accepts key new tbl tbl' :
  StatSet_insert store_accepts key new tbl = inr tbl'
  ↔ (possession_fits new ∧ store_accepts new = true ∧ key_free key tbl)
    ∧ tbl' = tbl ++ [StatSet.set_pk (default (next_pk StatSet.id tbl) key) new].
Proof.
  unfold StatSet_insert.
  pose proof (StatSet_no_constraint new tbl) as Hno.
  destruct (decide (possession_fits new)) as [Hfit|Hfit];
    [|split; [done | tauto]].
  destruct (decide _) as [(Hacc & Hkey & _)|Hrefused].
  - split; [by intros [= <-] | by intros [_ ->]].
  - split; [done | intros [(_ & Hacc & Hkey) _]; by destruct Hrefused].
Qed.

(** C8, as the claim states it, fails: a table with one StatSet per team
    per game accepts a second StatSet for the same game and team. *)
Lemma statset_insert_breaks_one_per_team_per_game :
  ¬ (∀ store_accepts key new tbl tbl',
       one_per_team_per_game tbl →
       StatSet_insert store_accepts key new tbl = inr tbl' →
       one_per_team_per_game tbl').
Proof.
  intros H.
  specialize (H (λ _, true) None (sample_statset 1 1)
                [StatSet.set_pk 1 (sample_statset 1 1)]
                [StatSet.set_pk 1 (sample_statset 1 1);
                 StatSet.set_pk 2 (sample_statset 1 1)]).
  assert (one_per_team_per_game [StatSet.set_pk 1 (sample_statset 1 1)]) as H1.
  { intros game team. unfold statsets_of, qs_filter.
    etrans; [apply length_filter | done]. }
  assert (StatSet_insert (λ _, true) None (sample_statset 1 1)
            [StatSet.set_pk 1 (sample_statset 1 1)]
          = inr [StatSet.set_pk 1 (sample_statset 1 1);
                 StatSet.set_pk 2 (sample_statset 1 1)]) as H2.
  { apply StatSet_insert_accepted. split; [|done].
    split_and!; [unfold possession_fits; simpl; lia | done | done]. }
  specialize (H H1 H2 1 1). vm_compute in H. lia.
Qed.

(** C8, amended.  The model declares no uniqueness over game and team:
    whether an insert of a StatSet is accepted depends on the new row
    alone (its possession fits the declared digits, the store accepts its
    values, its key is free) and not on the StatSets stored for its game
    and team; an accepted insert adds one StatSet to those of its game and
    team, and leaves the StatSets of any other game or team as they
    were. *)
Theorem statset_insert_ignores_game_and_team store_accepts key new tbl :
  ((∃ tbl', StatSet_insert store_accepts key new tbl = inr tbl')
   ↔ possession_fits new ∧ store_accepts new = true ∧ key_free key tbl)
  ∧ ∀ tbl',
      StatSet_insert store_accepts key new tbl = inr tbl' →
      length (statsets_of (StatSet.game new) (StatSet.team new) tbl')
      = S (length (statsets_of (StatSet.game new) (StatSet.team new) tbl))
      ∧ ∀ game team,
          ¬ (StatSet.game new = game ∧ StatSet.team new = team) →
          statsets_of game team tbl' = statsets_of game team tbl.
Proof.
  split.
  - split.
    + intros [tbl' Hok]. by apply StatSet_insert_accepted in Hok as [? _].
    + intros Hok. eexists. by apply StatSet_insert_accepted.
  - intros tbl' Hok. apply StatSet_insert_accepted in Hok as [_ ->].
    unfold statsets_of, qs_filter. split.
    + rewrite filter_app, length_app, (filter_cons_True _ _ []) by done.
      simpl. lia.
    + intros game team Hne.
      rewrite filter_app, (filter_cons_False _ _ []) by done.
      by rewrite app_nil_r.
Qed.

Lemma statset_insert_ignores_game_and_team_witness :
  ∃ tbl',
    StatSet_insert (λ _, true) None (sample_statset 1 1)
      [StatSet.set_pk 1 (sample_statset 1 1)] = inr tbl'
    ∧ length (statsets_of 1 1 tbl') = 2%nat.
Proof.
  destruct (statset_insert_ignores_game_and_team (λ _, true) None
              (sample_statset 1 1) [StatSet.set_pk 1 (sample_statset 1 1)])
    as [Hiff Hadd].
  destruct (proj2 Hiff) as [tbl' Hok].
  - split_and!; [unfold possession_fits; simpl; lia | done | done].
  - exists tbl'. split; [exact Hok|].
    destruct (Hadd tbl' Hok) as [Hlen _]. exact Hlen.
Defined.

Example statset_insert_possession_100 :
  StatSet_insert (λ _, true) None
    (StatSet.Make 0 stamp0 10 4 5 1 6 12 20 2 1 0 0 30 55 400 80 10000 1 1) []
  = inl InvalidOperation.
Proof. reflexivity. Qed.

(** ** Timestamps *)

Section timestamps.
Context {A : Type} `{Stamped A}.

Lemma save_modified add now (self : A) :
  BaseModel.modified (stamps (save add now self)) = now.
Proof. unfold save. by rewrite stamps_set_stamps. Qed.

Lemma save_created_insert now (self : A) :
  BaseModel.created (stamps (save true now self)) = now.
Proof. unfold save. by rewrite stamps_set_stamps. Qed.

Lemma save_created_update now (self : A) :
  BaseModel.created (stamps (save false now self))
  = BaseModel.created (stamps self).
Proof. unfold save. by rewrite stamps_set_stamps. Qed.

Lemma updates_modified us (self : A) :
  (λ a, BaseModel.modified (stamps a)) <$> updates us self = us.*1.
Proof.
  revert self. induction us as [|[now edit] us IH]; intros self; [done|].
  simpl. by rewrite save_modified, IH.
Qed.

Lemma updates_created us (self : A) :
  Forall (λ u, ∀ a, BaseModel.created (stamps (u.2 a))
                    = BaseModel.created (stamps a)) us →
  Forall (λ a, BaseModel.created (stamps a) = BaseModel.created (stamps self))
    (updates us self).
Proof.
  intros Hus. revert self.
  induction Hus as [|[now edit] us Hu Hus IH]; intros self; [constructor|].
  simpl in *. constructor.
  - by rewrite save_created_update, Hu.
  - eapply Forall_impl; [apply IH|]. simpl. intros a ->.
    by rewrite save_created_update, Hu.
Qed.
End timestamps.

(** C6, as the claim states it, fails on both counts: a save at an earlier
    clock reading lowers [modified], and an update that assigns [created]
    changes it. *)
Lemma timestamps_not_kept_by_every_update :
  ¬ (∀ (t0 : Z) (new : Team.t) (us : list (Z * (Team.t → Team.t))),
       StronglySorted Z.le
         ((λ a, BaseModel.modified (stamps a)) <$> history t0 new us))
  ∧ ¬ (∀ (t0 : Z) (new : Team.t) (us : list (Z * (Team.t → Team.t))),
         Forall (λ a, BaseModel.created (stamps a) = t0) (history t0 new us)).
Proof.
  split; intros H.
  - specialize (H 10 (Team.Make 1 stamp0 "Seattle" "seattle") [(5, λ r, r)]).
    simpl in H. apply StronglySorted_inv in H as [_ H].
    apply Forall_cons in H as [H _]. lia.
  - specialize (H 10 (Team.Make 1 stamp0 "Seattle" "seattle")
                  [(20, Team_assign_created 3)]).
    apply Forall_cons in H as [_ H]. apply Forall_cons in H as [H _].
    simpl in H. lia.
Qed.

Section timestamps_of_a_row.
Context {A : Type} `{Stamped A}.

(** C6, amended.  A row of any model class is inserted at clock reading
    [t0] and then updated any number of times, each update an edit of the
    row followed by a save at the clock reading of that moment.  The
    [modified] timestamps of the row are the successive clock readings,
    whatever the edits assign; so [modified] never decreases when the clock
    readings do not.  [created] is the reading of the insert and stays so
    under updates whose edits do not assign [created]. *)
Theorem modified_follows_clock_created_kept_by_plain_updates
    (t0 : Z) (new : A) (us : list (Z * (A → A))) :
  (λ a, BaseModel.modified (stamps a)) <$> history t0 new us = t0 :: us.*1
  ∧ (Sorted Z.le (t0 :: us.*1) →
     StronglySorted Z.le
       ((λ a, BaseModel.modified (stamps a)) <$> history t0 new us))
  ∧ (Forall (λ u, ∀ a, BaseModel.created (stamps (u.2 a))
                       = BaseModel.created (stamps a)) us →
     Forall (λ a, BaseModel.created (stamps a) = t0) (history t0 new us)).
Proof.
  assert ((λ a, BaseModel.modified (stamps a)) <$> history t0 new us
          = t0 :: us.*1) as Hm.
  { unfold history. simpl. by rewrite save_modified, updates_modified. }
  split_and!; [done | |].
  - intros Hclock. rewrite Hm. by apply Sorted_StronglySorted; [apply _|].
  - intros Hedits. unfold history. constructor; [apply save_created_insert|].
    eapply Forall_impl; [by apply updates_created|].
    simpl. intros a ->. apply save_created_insert.
Qed.
End timestamps_of_a_row.

Lemma modified_follows_clock_created_kept_by_plain_updates_witness :
  StronglySorted Z.le
    ((λ a, BaseModel.modified (stamps a))
       <$> history 10 (Team.Make 1 stamp0 "Seattle" "seattle")
             sample_team_updates)
  ∧ Forall (λ a, BaseModel.created (stamps a) = 10)
      (history 10 (Team.Make 1 stamp0 "Seattle" "seattle") sample_team_updates).
Proof.
  destruct (modified_follows_clock_created_kept_by_plain_updates 10
              (Team.Make 1 stamp0 "Seattle" "seattle") sample_team_updates)
    as (_ & Hm & Hc).
  split.
  - apply Hm. repeat (constructor; try done).
  - apply Hc. repeat (constructor; try done).
Defined.
(** ** The Substitution migration *)

Local Arguments foreign_key_holds : simpl never.
Local Arguments column_values : simpl never.

Lemma foreign_key_holds_out db to keys :
  referenced_keys db to = Some keys →
  foreign_key_holds db "mls_api_substitution" "out_player_id" (ForeignKey to)
  ↔ Forall (λ r, Substitution.out_player r ∈ keys) (substitution_rows db).
Proof.
  intros Hk. unfold foreign_key_holds. rewrite Hk.
  change (column_values db "mls_api_substitution" "out_player_id")
    with (Substitution.out_player <$> substitution_rows db).
  by rewrite Forall_fmap.
Qed.

Lemma foreign_key_holds_in db to keys :
  referenced_keys db to = Some keys →
  foreign_key_holds db "mls_api_substitution" "in_player_id" (ForeignKey to)
  ↔ Forall (λ r, Substitution.in_player r ∈ keys) (substitution_rows db).
Proof.
  intros Hk. unfold foreign_key_holds. rewrite Hk.
  change (column_values db "mls_api_substitution" "in_player_id")
    with (Substitution.in_player <$> substitution_rows db).
  by rewrite Forall_fmap.
Qed.

Lemma keys_among_split keys rows :
  keys_among keys rows
  ↔ Forall (λ r, Substitution.out_player r ∈ keys) rows
    ∧ Forall (λ r, Substitution.in_player r ∈ keys) rows.
Proof. unfold keys_among. apply Forall_and. Qed.

(** A step goes through exactly when the table is there, the two columns
    are there or the store rebuilds the table, and the store does not
    enforce foreign keys or every stored key is a key of the new target. *)
Lemma retarget_spec to keys db :
  referenced_keys db to = Some keys →
  retarget to db
  = match db_schema db !! "mls_api_substitution" with
    | None => None
    | Some cols =>
        if decide ((alter_adds_missing_column db = true
                    ∨ (is_Some (cols !! "out_player_id")
                       ∧ is_Some (cols !! "in_player_id")))
                   ∧ (enforces_foreign_keys db = false
                      ∨ keys_among keys (substitution_rows db)))
        then Some (retargeted to cols db)
        else None
    end.
Proof.
  intros Hk. unfold retarget, alter_column at 2.
  destruct (db_schema db !! "mls_api_substitution") as [cols|] eqn:Hc;
    simpl; [|done].
  pose proof (foreign_key_holds_out db to keys Hk) as Hout.
  pose proof (keys_among_split keys (substitution_rows db)) as Hsplit.
  destruct (decide (is_Some (cols !! "out_player_id")
                    ∨ alter_adds_missing_column db = true)) as [Hc1|Hc1];
    [|rewrite decide_False; [done | tauto]].
  destruct (decide (enforces_foreign_keys db = false
                    ∨ foreign_key_holds db "mls_api_substitution"
                        "out_player_id" (ForeignKey to))) as [Hf1|Hf1];
    [|rewrite decide_False; [done | tauto]].
  simpl. unfold alter_column. simpl. rewrite lookup_insert_eq. simpl.
  rewrite lookup_insert_ne by done.
  set (db1 := MkDatabase _ _ _ _ _ _).
  assert (referenced_keys db1 to = Some keys) as Hk1 by done.
  pose proof (foreign_key_holds_in db1 to keys Hk1) as Hin. simpl in Hin.
  destruct (decide (is_Some (cols !! "in_player_id")
                    ∨ alter_adds_missing_column db = true)) as [Hc2|Hc2];
    [|rewrite decide_False; [done | tauto]].
  destruct (decide (enforces_foreign_keys db = false
                    ∨ foreign_key_holds db1 "mls_api_substitution"
                        "in_player_id" (ForeignKey to))) as [Hf2|Hf2];
    [|rewrite decide_False; [done | tauto]].
  rewrite decide_True by tauto. unfold retargeted. simpl.
  by rewrite insert_insert_eq.
Qed.

Lemma forwards_spec db :
  Migration.forwards db
  = match db_schema db !! "mls_api_substitution" with
    | None => None
    | Some cols =>
        if decide ((alter_adds_missing_column db = true
                    ∨ (is_Some (cols !! "out_player_id")
                       ∧ is_Some (cols !! "in_player_id")))
                   ∧ (enforces_foreign_keys db = false
                      ∨ keys_among (gameplayer_keys db) (substitution_rows db)))
        then Some (retargeted "mls_api.GamePlayer" cols db)
        else None
    end.
Proof. by apply (retarget_spec "mls_api.GamePlayer"). Qed.

Lemma backwards_spec db :
  Migration.backwards db
  = match db_schema db !! "mls_api_substitution" with
    | None => None
    | Some cols =>
        if decide ((alter_adds_missing_column db = true
                    ∨ (is_Some (cols !! "out_player_id")
                       ∧ is_Some (cols !! "in_player_id")))
                   ∧ (enforces_foreign_keys db = false
                      ∨ keys_among (player_keys db) (substitution_rows db)))
        then Some (retargeted "mls_api.Player" cols db)
        else None
    end.
Proof. by apply (retarget_spec "mls_api.Player"). Qed.





Lemma retargeted_frame to cols db table_name name :
  db_schema db !! "mls_api_substitution" = Some cols →
  ¬ (table_name = "mls_api_substitution"
     ∧ (name = "out_player_id" ∨ name = "in_player_id")) →
  schema_column (retargeted to cols db) table_name name
  = schema_column db table_name name.
Proof.
  intros Hc Hne. unfold schema_column, retargeted. simpl.
  destruct (decide (table_name = "mls_api_substitution")) as [->|Ht].
  - rewrite lookup_insert_eq, Hc. simpl.
    rewrite !lookup_insert_ne; [done | |]; intros <-; apply Hne; auto.
  - by rewrite lookup_insert_ne.
Qed.

Lemma retargeted_twice to1 to2 (cols : gmap string Field) :
  <["in_player_id" := ForeignKey to2]>
    (<["out_player_id" := ForeignKey to2]>
       (<["in_player_id" := ForeignKey to1]>
          (<["out_player_id" := ForeignKey to1]> cols)))
  = <["in_player_id" := ForeignKey to2]>
      (<["out_player_id" := ForeignKey to2]> cols).
Proof.
  apply map_eq. intros k.
  destruct (decide (k = "in_player_id")) as [->|Hk1];
    [by rewrite !lookup_insert_eq
    |rewrite !(lookup_insert_ne _ "in_player_id") by done].
  destruct (decide (k = "out_player_id")) as [->|Hk2];
    [by rewrite !lookup_insert_eq | by rewrite !lookup_insert_ne by done].
Qed.




Example forwards_gives_frozen_substitution :
  (db_schema <$> Migration.forwards sample_db_before)
  = Some {[ "mls_api_substitution" := Migration.frozen_substitution ]}.
Proof. refine (bool_decide_unpack _ _). vm_compute. exact I. Qed.

(** * Further properties of the model code *)

(** ** How the goals of a game make up its scores *)

Lemma length_filter_disjoint {A} (P1 P2 Q : A → Prop)
    `{∀ x, Decision (P1 x)} `{∀ x, Decision (P2 x)} `{∀ x, Decision (Q x)} l :
  (∀ x, P1 x → Q x) → (∀ x, P2 x → Q x) → (∀ x, P1 x → P2 x → False) →
  (length (filter P1 l) + length (filter P2 l) ≤ length (filter Q l))%nat.
Proof.
  intros HP1 HP2 HP12. induction l as [|x l IH]; [done|].
  rewrite !filter_cons.
  destruct (decide (P1 x)), (decide (P2 x)), (decide (Q x)); simpl;
    try lia; exfalso; eauto.
Qed.

(** X1. The count for a team never exceeds the number of goals of the
    game: no goal is counted twice for the same team. *)
Theorem score_at_most_goals st G team :
  (_retrieve_goal_count st G team ≤ length (goal_set st G))%nat.
Proof.
  rewrite retrieve_goal_count_spec. unfold score_spec, goal_set, qs_filter.
  apply length_filter_disjoint.
  - by intros g (Hg & _).
  - by intros g (Hg & _).
  - intros g (_ & Hf & _) (_ & Ht & _). congruence.
Qed.

(** X2. In a game between two different teams in which every goal was
    scored by a player fielded for one of the two, the two counts add up
    to the number of goals of the game. *)
Theorem scores_add_up_to_goals st G :
  Game.home_team G ≠ Game.away_team G →
  (∀ g, g ∈ goal_set st G →
        player__team st g = Some (Game.home_team G)
        ∨ player__team st g = Some (Game.away_team G)) →
  (_retrieve_goal_count st G (Game.home_team G)
   + _retrieve_goal_count st G (Game.away_team G)
   = length (goal_set st G))%nat.
Proof.
  intros Hne Hteams. rewrite !retrieve_goal_count_spec.
  unfold score_spec, goal_set, qs_filter in *.
  induction (goals st) as [|g l IH]; [done|].
  assert (∀ g, g ∈ filter (λ g, Goal.game g = Game.id G) l →
               player__team st g = Some (Game.home_team G)
               ∨ player__team st g = Some (Game.away_team G)) as Hl.
  { intros g' Hg'. apply Hteams. rewrite filter_cons.
    destruct (decide _); [by apply elem_of_cons; right | done]. }
  specialize (IH Hl). rewrite !filter_cons.
  destruct (decide (Goal.game g = Game.id G)) as [Hg|Hg].
  - assert (player__team st g = Some (Game.home_team G)
            ∨ player__team st g = Some (Game.away_team G)) as Ht.
    { apply Hteams. rewrite filter_cons, decide_True by done.
      apply elem_of_cons. by left. }
    destruct (Goal.own_goal g) eqn:Hown, Ht as [Ht|Ht]; rewrite Ht;
      repeat case_decide; simpl; try lia; exfalso;
      try (destruct_and?; congruence);
      repeat match goal with
             | H : ¬ (_ ∧ _) |- _ =>
                 apply H; split_and!; try done; try (by eexists); congruence
             end.
  - repeat case_decide; simpl; try lia; exfalso; destruct_and?; congruence.
Qed.

Lemma scores_add_up_to_goals_witness :
  (_retrieve_goal_count sample_store_two_teams sample_game 1
   + _retrieve_goal_count sample_store_two_teams sample_game 2
   = length (goal_set sample_store_two_teams sample_game))%nat.
Proof.
  apply (scores_add_up_to_goals sample_store_two_teams sample_game).
  - simpl. lia.
  - intros g Hg. vm_compute in Hg.
    repeat (apply elem_of_cons in Hg as [->|Hg]; [vm_compute; auto|]).
    by apply elem_of_nil in Hg.
Defined.

Lemma score_spec_record_goal st G g team :
  score_spec (record_goal g st) G team
  = (score_spec st G team
     + (if decide (Goal.game g = Game.id G ∧ Goal.own_goal g = false
                   ∧ player__team st g = Some team) then 1 else 0)
     + (if decide (Goal.game g = Game.id G ∧ Goal.own_goal g = true
                   ∧ is_Some (player__team st g)
                   ∧ player__team st g ≠ Some team) then 1 else 0))%nat.
Proof.
  unfold score_spec, player__team. simpl.
  rewrite !filter_app, !length_app, !filter_cons, !filter_nil.
  repeat case_decide; simpl; lia.
Qed.

(** X3. A goal recorded for another game changes no count of this game
    and is not among its goals. *)
Theorem goal_of_other_game_changes_no_score st G g team :
  Goal.game g ≠ Game.id G →
  _retrieve_goal_count (record_goal g st) G team
  = _retrieve_goal_count st G team
  ∧ goal_set (record_goal g st) G = goal_set st G.
Proof.
  intros Hg. split.
  - rewrite !retrieve_goal_count_spec, score_spec_record_goal.
    rewrite !decide_False by (by intros [? _]). lia.
  - unfold goal_set, qs_filter. simpl.
    by rewrite filter_app, (filter_cons_False _ g []), app_nil_r.
Qed.

Lemma goal_of_other_game_changes_no_score_witness :
  _retrieve_goal_count
    (record_goal (Goal.Make 9 stamp0 2 5 10 false false) sample_store_two_teams)
    sample_game 1
  = _retrieve_goal_count sample_store_two_teams sample_game 1.
Proof.
  apply (goal_of_other_game_changes_no_score sample_store_two_teams sample_game
           (Goal.Make 9 stamp0 2 5 10 false false) 1).
  simpl. lia.
Defined.

(** X4. Recording a goal of the game that is not an own goal raises the
    count of the scorer's team by one and leaves the count of every other
    team as it was. *)
Theorem regular_goal_counts_for_scorers_team st G g t' :
  Goal.game g = Game.id G → Goal.own_goal g = false →
  player__team st g = Some t' →
  _retrieve_goal_count (record_goal g st) G t'
  = S (_retrieve_goal_count st G t')
  ∧ ∀ team, team ≠ t' →
      _retrieve_goal_count (record_goal g st) G team
      = _retrieve_goal_count st G team.
Proof.
  intros Hg Hown Ht. split; [|intros team Hne];
    rewrite !retrieve_goal_count_spec, score_spec_record_goal.
  - rewrite decide_True by done.
    rewrite decide_False by (intros (_ & ? & _); congruence). lia.
  - rewrite decide_False by (intros (_ & _ & ?); congruence).
    rewrite decide_False by (intros (_ & ? & _); congruence). lia.
Qed.

Lemma regular_goal_counts_for_scorers_team_witness :
  _retrieve_goal_count
    (record_goal (Goal.Make 4 stamp0 1 88 10 false false) sample_store_two_teams)
    sample_game 1
  = 3%nat.
Proof.
  apply (regular_goal_counts_for_scorers_team sample_store_two_teams sample_game
           (Goal.Make 4 stamp0 1 88 10 false false) 1);
    reflexivity.
Defined.

(** X5. Recording an own goal of the game leaves the count of the
    scorer's team as it was and raises the count of every other team by
    one. *)
Theorem own_goal_counts_for_every_other_team st G g t' :
  Goal.game g = Game.id G → Goal.own_goal g = true →
  player__team st g = Some t' →
  _retrieve_goal_count (record_goal g st) G t'
  = _retrieve_goal_count st G t'
  ∧ ∀ team, team ≠ t' →
      _retrieve_goal_count (record_goal g st) G team
      = S (_retrieve_goal_count st G team).
Proof.
  intros Hg Hown Ht. split; [|intros team Hne];
    rewrite !retrieve_goal_count_spec, score_spec_record_goal.
  - rewrite decide_False by (intros (_ & ? & _); congruence).
    rewrite decide_False by (intros (_ & _ & _ & ?); congruence). lia.
  - rewrite decide_False by (intros (_ & ? & _); congruence).
    rewrite decide_True; [lia|].
    rewrite Ht. split_and!; [done | done | by eexists | congruence].
Qed.

Lemma own_goal_counts_for_every_other_team_witness :
  _retrieve_goal_count
    (record_goal (Goal.Make 4 stamp0 1 88 10 false true) sample_store_two_teams)
    sample_game 1
  = 2%nat.
Proof.
  apply (own_goal_counts_for_every_other_team sample_store_two_teams
           sample_game (Goal.Make 4 stamp0 1 88 10 false true) 1);
    reflexivity.
Defined.

(** X6. The counts do not depend on the order in which the Goal table
    holds its rows. *)
Theorem score_independent_of_goal_order st st' G team :
  gameplayers st = gameplayers st' → goals st ≡ₚ goals st' →
  _retrieve_goal_count st G team = _retrieve_goal_count st' G team.
Proof.
  intros Hgp Hperm. rewrite !retrieve_goal_count_spec.
  unfold score_spec, player__team. rewrite <- Hgp.
  by rewrite Hperm.
Qed.

Lemma score_independent_of_goal_order_witness :
  _retrieve_goal_count sample_store_two_teams sample_game 2
  = _retrieve_goal_count
      (MkStore (teams sample_store_two_teams)
         (gameplayers sample_store_two_teams)
         (reverse (goals sample_store_two_teams)) [] [])
      sample_game 2.
Proof.
  apply score_independent_of_goal_order; [reflexivity|].
  simpl. symmetry. apply reverse_Permutation.
Defined.

(** ** What a formation string depends on *)

(** X8. A line recorded for another formation leaves the formation
    string as it was. *)
Theorem formation_str_ignores_other_formations bk st self l :
  FormationLine.formation l ≠ Formation.id self →
  formation_str bk (record_formationline l st) self = formation_str bk st self.
Proof.
  intros Hl. unfold formation_str, formationline_set, qs_filter. simpl.
  by rewrite filter_app, (filter_cons_False _ l []), app_nil_r.
Qed.

Lemma formation_str_ignores_other_formations_witness :
  formation_str sample_backend
    (record_formationline (FormationLine.Make 6 stamp0 2 1)
       sample_formation_store)
    sample_formation
  = formation_str sample_backend sample_formation_store sample_formation.
Proof.
  apply (formation_str_ignores_other_formations sample_backend
           sample_formation_store sample_formation
           (FormationLine.Make 6 stamp0 2 1)).
  simpl. lia.
Defined.

Lemma line_players_record_other st fp x :
  FormationLine.id x ≠ FormationPlayer.line fp →
  line_players (record_formationplayer fp st) x = line_players st x.
Proof.
  intros Hx. unfold line_players, qs_filter. simpl.
  rewrite filter_app, (filter_cons_False _ fp []), app_nil_r; [done|].
  intros [? _]. congruence.
Qed.

(** X9. A FormationPlayer recorded for a line that is not one of the
    formation's lines after the first (the first line itself, when no other
    line shares its key, or a line of another formation) leaves the
    formation string as it was: the size of the first line never shows. *)
Theorem formation_str_hides_first_line bk st self fp :
  (∀ x, x ∈ drop 1 (formationline_set bk st self) →
        FormationLine.id x ≠ FormationPlayer.line fp) →
  formation_str bk (record_formationplayer fp st) self = formation_str bk st self.
Proof.
  intros Hx. rewrite !formation_str_refines. unfold formation_str_spec.
  change (formationline_set bk (record_formationplayer fp st) self)
    with (formationline_set bk st self).
  f_equal. apply list_fmap_ext. intros i x Hin.
  apply list_elem_of_lookup_2 in Hin.
  by rewrite line_players_record_other by by apply Hx.
Qed.

Lemma formation_str_hides_first_line_witness :
  formation_str sample_backend
    (record_formationplayer (FormationPlayer.Make 14 stamp0 12 1 1)
       sample_formation_store)
    sample_formation
  = formation_str sample_backend sample_formation_store sample_formation.
Proof.
  apply (formation_str_hides_first_line sample_backend sample_formation_store
           sample_formation (FormationPlayer.Make 14 stamp0 12 1 1)).
  intros x Hx. vm_compute in Hx.
  repeat (apply elem_of_cons in Hx as [->|Hx]; [simpl; lia|]).
  by apply elem_of_nil in Hx.
Defined.

Lemma line_players_Permutation st st' x :
  gameplayers st = gameplayers st' →
  formationplayers st ≡ₚ formationplayers st' →
  length (line_players st x) = length (line_players st' x).
Proof.
  intros Hgp Hfp. unfold line_players, qs_filter. rewrite <- Hgp.
  by rewrite Hfp.
Qed.

(** X10. When the lines of a formation have pairwise different
    [sort_order] values, its formation string does not depend on the order
    in which the FormationLine and FormationPlayer tables hold their
    rows. *)
Theorem formation_str_independent_of_storage_order bk st st' self :
  gameplayers st = gameplayers st' →
  formationlines st ≡ₚ formationlines st' →
  formationplayers st ≡ₚ formationplayers st' →
  (∀ x y, x ∈ formationlines st → y ∈ formationlines st →
          FormationLine.formation x = Formation.id self →
          FormationLine.formation y = Formation.id self →
          FormationLine.sort_order x = FormationLine.sort_order y → x = y) →
  formation_str bk st self = formation_str bk st' self.
Proof.
  intros Hgp Hlines Hfp Hdistinct.
  destruct (formationline_set_sorted bk st self) as [Hs Hp].
  destruct (formationline_set_sorted bk st' self) as [Hs' Hp'].
  assert (formationline_set bk st self = formationline_set bk st' self) as Heq.
  { apply (StronglySorted_unique_strong by_sort_order); [|done|done|].
    - intros x y Hx Hy Hxy Hyx.
      rewrite Hp in Hx. rewrite Hp', <- Hlines in Hy.
      apply list_elem_of_filter in Hx as [Hfx Hx].
      apply list_elem_of_filter in Hy as [Hfy Hy].
      apply Hdistinct; try done. unfold by_sort_order in *. lia.
    - by rewrite Hp, Hp', Hlines. }
  unfold formation_str, qs_count. rewrite <- Heq. do 2 f_equal.
  apply list_fmap_ext. intros i x _.
  by rewrite (line_players_Permutation st st' x).
Qed.

Lemma formation_str_independent_of_storage_order_witness :
  formation_str sample_backend sample_formation_store sample_formation
  = formation_str sample_backend
      (MkStore [] (gameplayers sample_formation_store) []
         (reverse (formationlines sample_formation_store))
         (reverse (formationplayers sample_formation_store)))
      sample_formation.
Proof.
  apply formation_str_independent_of_storage_order.
  - reflexivity.
  - simpl. symmetry. apply reverse_Permutation.
  - simpl. symmetry. apply reverse_Permutation.
  - intros x y Hx Hy Hfx Hfy Hxy. simpl in Hx, Hy.
    repeat (apply elem_of_cons in Hx as [->|Hx]);
      try (by apply elem_of_nil in Hx);
      repeat (apply elem_of_cons in Hy as [->|Hy]);
      try (by apply elem_of_nil in Hy);
      simpl in *; (reflexivity || lia).
Defined.

Lemma pretty_N_go_nonempty (x : N) : ∀ s, s ≠ "" → pretty_N_go x s ≠ "".
Proof.
  induction (N.lt_wf_0 x) as [x _ IH]. intros s Hs.
  destruct (decide (x = 0%N)) as [->|Hx]; [by rewrite pretty_N_go_0|].
  rewrite pretty_N_go_step by lia.
  apply IH; [apply N.div_lt; lia | done].
Qed.

Lemma str_nonempty (n : nat) : str n ≠ "".
Proof.
  unfold str, pretty, pretty_nat, pretty, pretty_N.
  destruct (decide (N.of_nat n = 0%N)) as [|Hn]; [done|].
  rewrite pretty_N_go_step by lia. by apply pretty_N_go_nonempty.
Qed.

Lemma join_nonempty sep (s : string) (l : list string) :
  s ≠ "" → join sep (s :: l) ≠ "".
Proof.
  intros Hs. unfold join. destruct s as [|c s]; [done|].
  by destruct l.
Qed.

(** X18. The formation string is empty exactly when the formation has
    fewer than two lines: with two or more lines it holds at least the
    count of the second line, even when that count is zero. *)
Theorem formation_str_empty_iff bk st self :
  formation_str bk st self = ""
  ↔ (length (filter (λ l, FormationLine.formation l = Formation.id self)
               (formationlines st)) < 2)%nat.
Proof.
  destruct (formationline_set_sorted bk st self) as [_ Hperm].
  apply Permutation_length in Hperm. rewrite <- Hperm.
  unfold formation_str.
  destruct (formationline_set bk st self) as [|x [|y l]]; simpl;
    [split; [lia | done] | split; [lia | done] |].
  split; [|lia]. intros Hstr.
  exfalso. revert Hstr. apply join_nonempty, str_nonempty.
Qed.

(** ** The other default orderings *)

Lemma rows_le_FormationPlayer bk a b :
  rows_le bk FormationPlayer_column FormationPlayer_Meta_ordering a b
  ↔ by_player_sort_order a b.
Proof.
  unfold rows_le, by_player_sort_order.
  cbn [rows_leb FormationPlayer_Meta_ordering].
  change (term_leb bk FormationPlayer_column "sort_order" a b)
    with (FormationPlayer.sort_order a <=? FormationPlayer.sort_order b).
  change (term_leb bk FormationPlayer_column "sort_order" b a)
    with (FormationPlayer.sort_order b <=? FormationPlayer.sort_order a).
  destruct (Z.leb_spec (FormationPlayer.sort_order a)
              (FormationPlayer.sort_order b)),
    (Z.leb_spec (FormationPlayer.sort_order b) (FormationPlayer.sort_order a));
    split; (done || lia).
Qed.

(** X11. Listing FormationLines, and listing FormationPlayers, gives the
    stored rows in ascending [sort_order], whatever the collation and the
    NULL placement of the store. *)
Theorem formation_listings_follow_sort_order bk
    (tbl_l : list FormationLine.t) (tbl_p : list FormationPlayer.t) :
  (FormationLine_objects_all bk tbl_l ≡ₚ tbl_l
   ∧ StronglySorted by_sort_order (FormationLine_objects_all bk tbl_l))
  ∧ (FormationPlayer_objects_all bk tbl_p ≡ₚ tbl_p
     ∧ StronglySorted by_player_sort_order
         (FormationPlayer_objects_all bk tbl_p)).
Proof.
  split_and!.
  - apply (order_by_sorted _ _ _ _ (rows_le_FormationLine bk));
      apply by_sort_order_preorder.
  - apply (order_by_sorted _ _ _ _ (rows_le_FormationLine bk));
      apply by_sort_order_preorder.
  - apply (order_by_sorted _ _ _ _ (rows_le_FormationPlayer bk));
      unfold by_player_sort_order; [intros a b c; lia | intros a b; lia].
  - apply (order_by_sorted _ _ _ _ (rows_le_FormationPlayer bk));
      unfold by_player_sort_order; [intros a b c; lia | intros a b; lia].
Qed.

(** ** The steps of the migration *)

(** X12. On a store that enforces foreign keys, a step is refused when a
    stored Substitution row holds an in or out key that is not a key of the
    table the step points the columns at: GamePlayer for the forward step,
    Player for the backward step. *)
Theorem migration_step_refused_on_dangling_key db r :
  enforces_foreign_keys db = true → r ∈ substitution_rows db →
  (¬ (Substitution.out_player r ∈ gameplayer_keys db
      ∧ Substitution.in_player r ∈ gameplayer_keys db) →
   Migration.forwards db = None)
  ∧ (¬ (Substitution.out_player r ∈ player_keys db
        ∧ Substitution.in_player r ∈ player_keys db) →
     Migration.backwards db = None).
Proof.
  intros Henf Hr. split; intros Hkey;
    [rewrite forwards_spec | rewrite backwards_spec];
    (destruct (db_schema db !! "mls_api_substitution"); [|done];
     apply decide_False; intros [_ [Hno|Hkeys]]; [congruence|];
     apply Hkey; unfold keys_among in Hkeys;
     by apply (proj1 (Forall_forall _ _) Hkeys r)).
Qed.

Lemma migration_step_refused_on_dangling_key_witness :
  Migration.backwards
    (create_substitutions [sample_substitution_gameplayer_only] sample_db_after)
  = None.
Proof.
  apply (migration_step_refused_on_dangling_key
           (create_substitutions [sample_substitution_gameplayer_only]
              sample_db_after)
           sample_substitution_gameplayer_only).
  - reflexivity.
  - simpl. apply elem_of_cons. right. apply elem_of_cons. by left.
  - refine (bool_decide_unpack _ _). vm_compute. exact I.
Defined.

Lemma retargeted_again to1 to2 cols db :
  retargeted to2
    (<["in_player_id" := ForeignKey to1]>
       (<["out_player_id" := ForeignKey to1]> cols))
    (retargeted to1 cols db)
  = retargeted to2 cols db.
Proof.
  unfold retargeted. simpl. by rewrite insert_insert_eq, retargeted_twice.
Qed.

Lemma retarget_after_retarget to1 to2 keys1 keys2 db db1 :
  referenced_keys db to1 = Some keys1 →
  referenced_keys db to2 = Some keys2 →
  (∀ d, referenced_keys (retargeted to1 d db) to2 = Some keys2) →
  retarget to1 db = Some db1 →
  retarget to2 db1 = retarget to2 db.
Proof.
  intros Hk1 Hk2 Hk2' Hrun.
  rewrite (retarget_spec to1 keys1 db Hk1) in Hrun.
  rewrite (retarget_spec to2 keys2 db Hk2).
  destruct (db_schema db !! "mls_api_substitution") as [cols|] eqn:Hc;
    [|done].
  destruct (decide _) as [[Hcols Hkeys]|]; [|done]. injection Hrun as <-.
  rewrite (retarget_spec to2 keys2 _ (Hk2' cols)). simpl.
  rewrite lookup_insert_eq, retargeted_again.
  destruct (decide ((alter_adds_missing_column db = true
                     ∨ is_Some (cols !! "out_player_id")
                       ∧ is_Some (cols !! "in_player_id"))
                    ∧ (enforces_foreign_keys db = false
                       ∨ keys_among keys2 (substitution_rows db))))
    as [[_ Hk]|Hno].
  - apply decide_True. split; [|done]. right.
    rewrite lookup_insert_ne by done. rewrite !lookup_insert_eq.
    split; by eexists.
  - apply decide_False. intros [_ Hk]. apply Hno. by split.
Qed.

(** X13. After a step has gone through, its outcome no longer shows
    where the two columns pointed before: running the same step again
    succeeds and changes nothing, and running the other step gives what the
    other step gives when run alone. *)
Theorem migration_steps_absorb db db1 :
  (Migration.forwards db = Some db1 →
   Migration.forwards db1 = Some db1
   ∧ Migration.backwards db1 = Migration.backwards db)
  ∧ (Migration.backwards db = Some db1 →
     Migration.backwards db1 = Some db1
     ∧ Migration.forwards db1 = Migration.forwards db).
Proof.
  split; intros Hrun.
  - split.
    + etrans; [|exact Hrun].
      by apply (retarget_after_retarget "mls_api.GamePlayer"
                  "mls_api.GamePlayer" (gameplayer_keys db)
                  (gameplayer_keys db)).
    + by apply (retarget_after_retarget "mls_api.GamePlayer"
                  "mls_api.Player" (gameplayer_keys db) (player_keys db)).
  - split.
    + etrans; [|exact Hrun].
      by apply (retarget_after_retarget "mls_api.Player"
                  "mls_api.Player" (player_keys db) (player_keys db)).
    + by apply (retarget_after_retarget "mls_api.Player"
                  "mls_api.GamePlayer" (player_keys db) (gameplayer_keys db)).
Qed.

Lemma migration_steps_absorb_witness :
  ∃ db1,
    Migration.forwards sample_db_before = Some db1
    ∧ Migration.forwards db1 = Some db1
    ∧ Migration.backwards db1 = Migration.backwards sample_db_before.
Proof.
  destruct (Migration.forwards sample_db_before) as [db1|] eqn:Hf.
  - exists db1. split; [done|].
    by apply (proj1 (migration_steps_absorb sample_db_before db1)).
  - exfalso. revert Hf. rewrite forwards_spec. simpl. unfold schema_before.
    rewrite lookup_singleton_eq. rewrite decide_True; [done|].
    refine (bool_decide_unpack _ _). vm_compute. exact I.
Defined.

(** X14. A step changes nothing but the descriptions of the two columns:
    the stored Substitution rows and the description of every other
    column of every table are as before. *)
Theorem migration_step_frame db db' :
  Migration.forwards db = Some db' ∨ Migration.backwards db = Some db' →
  substitution_rows db' = substitution_rows db
  ∧ ∀ table_name name,
      ¬ (table_name = "mls_api_substitution"
         ∧ (name = "out_player_id" ∨ name = "in_player_id")) →
      schema_column db' table_name name = schema_column db table_name name.
Proof.
  intros [Hrun|Hrun];
    [rewrite forwards_spec in Hrun | rewrite backwards_spec in Hrun];
    (destruct (db_schema db !! "mls_api_substitution") as [cols|] eqn:Hc;
     [|done];
     destruct (decide _); [|done]; injection Hrun as <-;
     split; [done|]; intros table_name name Hne;
     by apply retargeted_frame).
Qed.

Lemma migration_step_frame_witness :
  ∃ db', Migration.backwards sample_db_after = Some db'
         ∧ substitution_rows db' = substitution_rows sample_db_after.
Proof.
  destruct (Migration.backwards sample_db_after) as [db'|] eqn:Hb.
  - exists db'. split; [done|].
    apply (migration_step_frame sample_db_after db'). by right.
  - exfalso. revert Hb. rewrite backwards_spec. simpl.
    rewrite lookup_singleton_eq. rewrite decide_True; [done|].
    refine (bool_decide_unpack _ _). vm_compute. exact I.
Defined.

(** X15. When the forward step goes through on a Substitution table that
    agrees with the frozen description in every column other than the two
    the step alters, the table afterwards is exactly as the migration
    freezes it. *)
Theorem forwards_reaches_frozen_substitution db db' cols :
  Migration.forwards db = Some db' →
  db_schema db !! "mls_api_substitution" = Some cols →
  (∀ c, c ≠ "out_player_id" → c ≠ "in_player_id" →
        cols !! c = Migration.frozen_substitution !! c) →
  db_schema db' !! "mls_api_substitution" = Some Migration.frozen_substitution.
Proof.
  intros Hrun Hc Hrest. rewrite forwards_spec, Hc in Hrun.
  destruct (decide _); [|done]. injection Hrun as <-.
  simpl. rewrite lookup_insert_eq. f_equal. apply map_eq. intros k.
  destruct (decide (k = "in_player_id")) as [->|Hk1];
    [by rewrite lookup_insert_eq | rewrite lookup_insert_ne by done].
  destruct (decide (k = "out_player_id")) as [->|Hk2];
    [by rewrite lookup_insert_eq | rewrite lookup_insert_ne by done].
  by apply Hrest.
Qed.

Lemma forwards_reaches_frozen_substitution_witness :
  ∃ db', Migration.forwards sample_db_before = Some db'
         ∧ db_schema db' !! "mls_api_substitution"
           = Some Migration.frozen_substitution.
Proof.
  destruct (Migration.forwards sample_db_before) as [db'|] eqn:Hf.
  - exists db'. split; [done|].
    apply (forwards_reaches_frozen_substitution sample_db_before db'
             (<["out_player_id" := ForeignKey "mls_api.Player"]>
                (<["in_player_id" := ForeignKey "mls_api.Player"]>
                   Migration.frozen_substitution))).
    + exact Hf.
    + simpl. unfold schema_before. apply lookup_singleton_eq.
    + intros c Hc1 Hc2. by rewrite !lookup_insert_ne.
  - exfalso. revert Hf. rewrite forwards_spec. simpl. unfold schema_before.
    rewrite lookup_singleton_eq. rewrite decide_True; [done|].
    refine (bool_decide_unpack _ _). vm_compute. exact I.
Defined.

(** ** The frozen models and [models.py] *)

(** X16. For each of the nine model classes the migration freezes, the
    frozen description lists exactly the fields the class ends up with in
    [models.py] (its own, the two timestamps of [BaseModel] and the
    automatic [id]), each with the same description; the two score fields
    that the Game class body first declares are not among them.  The
    columns of the frozen Substitution table are these fields, the foreign
    keys under [<field>_id]. *)
Theorem frozen_models_agree_with_model_classes :
  list_to_map frozen_booking = model_fields Booking_class_body
  ∧ list_to_map frozen_competition = model_fields Competition.class_body
  ∧ list_to_map frozen_game = model_fields Game.class_body
  ∧ list_to_map frozen_gameplayer = model_fields GamePlayer_class_body
  ∧ list_to_map frozen_goal = model_fields Goal_class_body
  ∧ list_to_map frozen_player = model_fields Player_class_body
  ∧ list_to_map frozen_statset = model_fields StatSet.class_body
  ∧ list_to_map frozen_substitution_fields
    = model_fields Substitution_class_body
  ∧ list_to_map frozen_team = model_fields Team.class_body
  ∧ Migration.frozen_substitution
    = list_to_map (db_column <$> frozen_substitution_fields).
Proof.
  split_and!; refine (bool_decide_unpack _ _); vm_compute; exact I.
Qed.

(** ** Display strings *)

Lemma GamePlayer_unicode_Player players gp :
  GamePlayer_unicode players gp
  = Player_unicode <$> fk_player players (GamePlayer.player gp).
Proof.
  unfold GamePlayer_unicode.
  by destruct (fk_player players (GamePlayer.player gp)).
Qed.

(** X17. A GamePlayer is displayed exactly as the Player it refers to.
    The display strings of a PlayerStatLine, of a Goal and of a
    Substitution are built from the display of the Player behind each
    GamePlayer they name, the Substitution naming the player coming in
    before the player going out; each raises exactly when one of these
    rows is missing. *)
Theorem display_strings_follow_player players st :
  (∀ gp, GamePlayer_unicode players gp
         = Player_unicode <$> fk_player players (GamePlayer.player gp))
  ∧ (∀ s, PlayerStatLine_unicode players st s
          = (λ p, "Stats for " +:+ Player_unicode p)
              <$> player_behind players st (PlayerStatLine.player s))
  ∧ (∀ g, Goal_unicode players st g
          = (λ p, "Goal by " +:+ Player_unicode p +:+ " at "
                  +:+ pretty (Goal.minute g) +:+ "'")
              <$> player_behind players st (Goal.player g))
  ∧ (∀ s, Substitution_unicode players st s
          = (p_in ← player_behind players st (Substitution.in_player s);
             p_out ← player_behind players st (Substitution.out_player s);
             Some (Player_unicode p_in +:+ " in for " +:+ Player_unicode p_out
                   +:+ " at " +:+ pretty (Substitution.minute s))))
  ∧ (∀ s, is_Some (Substitution_unicode players st s)
          ↔ is_Some (player_behind players st (Substitution.in_player s))
            ∧ is_Some (player_behind players st (Substitution.out_player s))).
Proof.
  assert (∀ s, Substitution_unicode players st s
          = (p_in ← player_behind players st (Substitution.in_player s);
             p_out ← player_behind players st (Substitution.out_player s);
             Some (Player_unicode p_in +:+ " in for " +:+ Player_unicode p_out
                   +:+ " at " +:+ pretty (Substitution.minute s)))) as Hsub.
  { intros s. unfold Substitution_unicode, player_behind.
    destruct (fk_gameplayer st (Substitution.in_player s)) as [gi|]; [|done].
    simpl. rewrite GamePlayer_unicode_Player.
    destruct (fk_player players (GamePlayer.player gi)); [|done]. simpl.
    destruct (fk_gameplayer st (Substitution.out_player s)) as [go|]; [|done].
    simpl. rewrite GamePlayer_unicode_Player.
    by destruct (fk_player players (GamePlayer.player go)). }
  split_and!.
  - apply GamePlayer_unicode_Player.
  - intros s. unfold PlayerStatLine_unicode, player_behind.
    destruct (fk_gameplayer st (PlayerStatLine.player s)) as [gp|]; [|done].
    simpl. rewrite GamePlayer_unicode_Player.
    by destruct (fk_player players (GamePlayer.player gp)).
  - intros g. unfold Goal_unicode, player_behind.
    destruct (fk_gameplayer st (Goal.player g)) as [gp|]; [|done].
    simpl. rewrite GamePlayer_unicode_Player.
    by destruct (fk_player players (GamePlayer.player gp)).
  - apply Hsub.
  - intros s. rewrite Hsub.
    destruct (player_behind players st (Substitution.in_player s)),
      (player_behind players st (Substitution.out_player s)); simpl;
      split; try (intros [? ?]; done); try (intros [[? ?] [? ?]]; done);
      intros _; try split; by eexists.
Qed.

Example sample_goal_displayed :
  Goal_unicode [Player.Make 7 stamp0 "Clint" "Dempsey" 2 1 "F"]
    sample_store_two_teams (Goal.Make 1 stamp0 1 12 10 false false)
  = Some "Goal by Clint Dempsey at 12'".
Proof. vm_compute. reflexivity. Qed.
